(** * Candlestick retriever: the ingestion pipeline of [main.py]

    A shallow embedding of the Binance history downloader: the batch fetcher
    [get_batch], the two pagination drivers [all_trade_to_csv] and
    [all_candle_to_csv], their callers [get_historical_agg_trades] and
    [get_historical_candlesticks], and the per-instrument loop of [main].

    Python state is threaded explicitly through a [State] record: the request
    parameter dict (one shared object per instrument run, mutated in place),
    the file system, the number of network calls made so far and a
    chronological trace of the observable events.  The network and the clock
    are inputs of the model.  Unbounded Python loops and the retry recursion
    of [get_batch] are driven by a fuel argument; running out of fuel is the
    outcome [OutOfFuel], which carries the state reached so far.

    Left out: the progress line each driver prints per page (and with it
    the ['T'] column it reads), responses whose body does not decode into
    rows, and the upload step that follows the loop of [main]. *)

From Stdlib Require Import ZArith Bool Lia.
From stdpp Require Import base option list strings gmap fin_maps sorting.

Local Open Scope string_scope.
Local Open Scope list_scope.
Local Open Scope Z_scope.

(** ** Data model *)

(** One record of a page.  [key] is the cursor column (['a'] for aggregated
    trades, ['open_time'] for candles); [fields] stands for the other
    columns, which the drivers never inspect. *)
Record Row := mkRow { key : Z; fields : list Z }.

(** A pandas DataFrame, as far as the drivers look at it: its rows. *)
Definition DataFrame := list Row.

(** Values held by the request parameter dict. *)
Inductive Value :=
| VInt (n : Z)
| VStr (s : string)
| VHash (secret : string).   (* hashlib.sha256(secret.encode('utf-8')) *)

Abbreviation Params := (gmap string Value).
Abbreviation Files := (gmap string DataFrame).

(** Python exceptions that the modelled code can raise. *)
Inductive Exn :=
| NameError (name : string)
| UnboundLocalError (name : string)
| KeyError (k : string)
| TypeError
| ValueError (msg : string).

(** [UnboundLocalError] is a subclass of [NameError]. *)
Definition is_NameError (e : Exn) : bool :=
  match e with
  | NameError _ | UnboundLocalError _ => true
  | _ => false
  end.

(** Exceptions of [requests] that [get_batch] catches. *)
Inductive NetExn := ConnectionError | Timeout | ConnectionResetError.

(** What one [requests.get] on a data endpoint does. *)
Inductive NetResult :=
| NetRaise (e : NetExn)
| NetResponse (status_code : Z) (json : DataFrame).

(** What one [requests.get] on the [time] endpoint does; the body either
    holds a ['serverTime'] entry or not. *)
Inductive TimeResult :=
| TimeRaise (e : NetExn)
| TimeBody (serverTime : option Z).

(** Observable events, in the order they happen. *)
Inductive Event :=
| EvTimeRequest
| EvRequest (api_path : string) (params : Params) (timeout : Value)
            (headers : option string)
| EvSleep (seconds : Z)
| EvPrint (msg : string)
| EvAppendCsv (filepath : string) (batches : list DataFrame) (df : DataFrame)
| EvParquet (path : string) (df : DataFrame)
| EvReport (wrote : bool) (new_lines : Z) (base quote : string).

Record State := mkState {
  params : Params;          (* the dict object shared by driver and fetcher *)
  files : Files;            (* data/ and compressed/ *)
  calls : nat;              (* network calls made so far *)
  trace : list Event        (* oldest first *)
}.

(** Result of running a piece of Python code. *)
Inductive Outcome (A : Type) :=
| Ok (a : A)
| Raise (e : Exn)
| OutOfFuel.
Arguments Ok {A} a.
Arguments Raise {A} e.
Arguments OutOfFuel {A}.

Definition is_OutOfFuel {A} (o : Outcome A) : bool :=
  match o with OutOfFuel => true | _ => false end.

Definition log (e : Event) (st : State) : State :=
  mkState (params st) (files st) (calls st) (trace st ++ [e]).

Definition tick (st : State) : State :=
  mkState (params st) (files st) (S (calls st)) (trace st).

Definition set_param (k : string) (v : Value) (st : State) : State :=
  mkState (<[k := v]> (params st)) (files st) (calls st) (trace st).

Definition set_files (fs : Files) (st : State) : State :=
  mkState (params st) fs (calls st) (trace st).

(** [params[k]] read as an integer. *)
Definition param_int (k : string) (st : State) : Outcome Z :=
  match params st !! k with
  | None => Raise (KeyError k)
  | Some (VInt n) => Ok n
  | Some _ => Raise TypeError
  end.

(** [df[field].max()] on a frame with at least one row. *)
Definition max_key (r : Row) (rs : list Row) : Z :=
  fold_left (fun m x => Z.max m (key x)) rs (key r).

(** [df[field].max()]; [None] is pandas' NaN on an empty column. *)
Definition column_max (df : DataFrame) : option Z :=
  match df with
  | [] => None
  | r :: rs => Some (max_key r rs)
  end.

Definition len {A} (l : list A) : Z := Z.of_nat (length l).

(** ** The Integrity Module ([src/preprocessing.py], imported as [pp]) *)

(** Insert a row into a table kept in descending key order; a row with the
    same key is replaced. *)
Fixpoint insert_row (r : Row) (l : DataFrame) : DataFrame :=
  match l with
  | [] => [r]
  | x :: l' =>
      if key r >? key x then r :: x :: l'
      else if key r =? key x then r :: l'
      else x :: insert_row r l'
  end.

(** Modelled from the spec: [pp.prepare_df] is not under src/.  It
    "concatenates accumulated pages [...], produces one ordered,
    duplicate-free table sorted ascending by the cursor field"; of two rows
    with one key the later one survives. *)
Definition prepare_df (batches : list DataFrame) : DataFrame :=
  rev (fold_left (fun acc r => insert_row r acc) (concat batches) []).

(** Modelled from the spec: [pp.append_to_csv] is not under src/.  It
    "appends the merged increment to the on-disk CSV" History Store, which is
    created when absent. *)
Definition append_to_csv (batches : list DataFrame) (df : DataFrame)
    (filepath : string) (st : State) : State :=
  log (EvAppendCsv filepath batches df)
      (set_files (<[filepath := default [] (files st !! filepath) ++ df]> (files st)) st).

(** Modelled from the spec: [pp.write_raw_to_parquet] is not under src/.  It
    "rewrites a compacted columnar snapshot file from the full merged
    table". *)
Definition write_raw_to_parquet (df : DataFrame) (full_path : string)
    (st : State) : State :=
  log (EvParquet full_path df) (set_files (<[full_path := df]> (files st)) st).

(** ** Reading the trace *)

Definition is_request (e : Event) : option Params :=
  match e with
  | EvRequest _ p _ _ => Some p
  | _ => None
  end.

(** Query parameters of the first data request of a trace. *)
Fixpoint first_request (t : list Event) : option Params :=
  match t with
  | [] => None
  | e :: t' =>
      match is_request e with
      | Some p => Some p
      | None => first_request t'
      end
  end.

Definition is_write (e : Event) : bool :=
  match e with
  | EvAppendCsv _ _ _ | EvParquet _ _ => true
  | _ => false
  end.

(** Pages handed to [pp.append_to_csv] by the flushes of a trace. *)
Definition flushed (t : list Event) : list DataFrame :=
  concat (map (fun e => match e with
                        | EvAppendCsv _ bs _ => bs
                        | _ => []
                        end) t).

(** Lengths, in seconds, of the sleeps of a trace. *)
Definition sleeps (t : list Event) : list Z :=
  omap (fun e => match e with EvSleep s => Some s | _ => None end) t.

(** Shape of an event: what happened, without the payload. *)
Inductive Kind := KTime | KRequest | KSleep | KPrint | KFlush (pages : nat)
                | KParquet | KReport.

Definition kind (e : Event) : Kind :=
  match e with
  | EvTimeRequest => KTime
  | EvRequest _ _ _ _ => KRequest
  | EvSleep _ => KSleep
  | EvPrint _ => KPrint
  | EvAppendCsv _ bs _ => KFlush (length bs)
  | EvParquet _ _ => KParquet
  | EvReport _ _ _ _ => KReport
  end.

(** Events logged between two states of one run. *)
Definition new_events (st st' : State) : list Event :=
  drop (length (trace st)) (trace st').

(** ** The environment and the batch fetcher *)

(** Command-line arguments ([src/args.py]) that the pipeline reads.
    [limit] and [timeout] have no [type=int]: they are the integer default or
    the string given on the command line. *)
Record Args := mkArgs {
  dtype : string;
  interval : string;
  limit : Value;
  start_at : Z;
  parquet : bool;
  timeout : Value
}.

(** Everything a run depends on from outside. *)
Record World := mkWorld {
  (* module globals [API_KEY] and [API_SECRET] *)
  API_KEY : option string;
  API_SECRET : option string;
  (* the data source: outcome of the [n]-th network call of the run, given
     the resource path and the query parameters sent *)
  net : nat -> string -> Params -> NetResult;
  time_net : nat -> TimeResult;
  (* the clock: [date.today()] as a day number, and the local UTC offset in
     seconds used by [date.fromtimestamp] *)
  today : Z;
  utc_offset : Z;
  (* [get_args()] *)
  args : Args
}.

(** [date.fromtimestamp(ms / 1000)] as a day number (days since
    1970-01-01, local time).  Python dates run from 0001-01-01 (day -719162)
    to 9999-12-31 (day 2932896); outside that range the call raises. *)
Definition date_fromtimestamp (w : World) (ms : Z) : Outcome Z :=
  let day := (ms / 1000 + utc_offset w) / 86400 in
  if (day <? -719162) || (day >? 2932896)
  then Raise (ValueError "year is out of range")
  else Ok day.

(** [requests.get(f'{API_BASE}{api_path}', params, timeout=..., headers=...)] *)
Definition requests_get (w : World) (api_path : string) (timeout : Value)
    (headers : option string) (st : State) : NetResult * State :=
  (net w (calls st) api_path (params st),
   tick (log (EvRequest api_path (params st) timeout headers) st)).

(** Outcome of the [try] block of [get_batch]. *)
Inductive TryResult :=
| Caught (e : NetExn)
| Uncaught (e : Exn)
| Response (status_code : Z) (json : DataFrame).

(** Lines 79-90: sign the request when credentials are configured, then
    send it. *)
Definition try_block (w : World) (api_path : string) (timeout : Value) (st : State)
    : TryResult * State :=
  let send headers st :=
    match requests_get w api_path timeout headers st with
    | (NetRaise e, st') => (Caught e, st')
    | (NetResponse status_code json, st') => (Response status_code json, st')
    end in
  match API_KEY w, API_SECRET w with
  | Some api_key, Some api_secret =>
      let st1 := tick (log EvTimeRequest st) in
      match time_net w (calls st) with
      | TimeRaise e => (Caught e, st1)
      | TimeBody None => (Uncaught (KeyError "serverTime"), st1)
      | TimeBody (Some servertimeint) =>
          let st2 := set_param "signiature" (VHash api_secret) st1 in
          let st3 := set_param "timestamp" (VInt servertimeint) st2 in
          send (Some api_key) st3
      end
  | _, _ => send None st
  end.

(** [time.sleep(seconds)] *)
Definition sleep (seconds : Z) (st : State) : State := log (EvSleep seconds) st.

Definition cooldown_message (e : NetExn) : string :=
  match e with
  | ConnectionError => "Connection error, Cooling down for 5 mins..."
  | Timeout => "Timeout, Cooling down for 5 min..."
  | ConnectionResetError => "Connection reset by peer, Cooling down for 5 min..."
  end.

(** [get_batch(params, api_path, timeout)], lines 74-114.  The three
    [except] clauses print, sleep [5 * 60] seconds and call [get_batch]
    again with the same arguments. *)
Fixpoint get_batch (w : World) (fuel : nat) (api_path : string) (timeout : Value)
    (st : State) : Outcome DataFrame * State :=
  match fuel with
  | O => (OutOfFuel, st)
  | S fuel' =>
      match try_block w api_path timeout st with
      | (Caught e, st1) =>
          let st2 := log (EvPrint (cooldown_message e)) st1 in
          let st3 := sleep (5 * 60) st2 in
          get_batch w fuel' api_path timeout st3
      | (Uncaught e, st1) => (Raise e, st1)
      | (Response status_code json, st1) =>
          if status_code =? 200 then (Ok json, st1)
          else (Ok [], log (EvPrint "Got erroneous response back") st1)
      end
  end.

(** ** The pagination drivers *)

(** The locals of a driver that outlive its loop.  [df] is unbound until
    the first assignment. *)
Record Locals := mkLocals {
  batches : list DataFrame;
  df : option DataFrame
}.

(** How one pass through a loop body ends. *)
Inductive Step :=
| Break
| Continue (last : Z) (loc : Locals).

(** Lines 179-186 and 266-271: the row-count estimate and the eager flush,
    run right after [batches.append(new_batch)]. *)
Definition flush_if_huge (filepath : string) (last : Z)
    (batches1 : list DataFrame) (df0 : option DataFrame) (st : State)
    : Outcome Step * State :=
  match param_int "limit" st with
  | Ok limit =>
      let lines := len batches1 * limit in
      if lines >=? 5000 then
        let df1 := prepare_df batches1 in
        let st1 := append_to_csv batches1 df1 filepath st in
        (Ok (Continue last (mkLocals [] (Some df1))), st1)
      else (Ok (Continue last (mkLocals batches1 df0)), st)
  | Raise e => (Raise e, st)
  | OutOfFuel => (OutOfFuel, st)
  end.

(** Lines 126-139: where the trade driver resumes.  Gives the initial
    [batches] and [last_id] and updates [params['fromId']].  On a History
    Store without rows pandas gives NaN for the largest id and the cursor
    becomes a float; the model stops there with a [ValueError]. *)
Definition trade_resume (filepath : string) (st : State)
    : Outcome (list DataFrame * Z) * State :=
  match params st !! "fromId" with
  | None => (Raise (KeyError "fromId"), st)
  | Some (VInt from_id) =>
      if from_id =? 0 then
        match files st !! filepath with
        | Some disk =>
            match column_max disk with
            | Some last_id =>
                (Ok ([[]], last_id), set_param "fromId" (VInt (last_id + 1)) st)
            | None => (Raise (ValueError "cursor is NaN"), st)
            end
        | None => (* except FileNotFoundError *)
            (Ok ([[]], from_id), st)
        end
      else
        let last_id := from_id in
        (Ok ([[]], last_id), set_param "fromId" (VInt (last_id + 1)) st)
  | Some _ => (Raise TypeError, st)
  end.

(** Lines 163-186: the trade loop body once [get_batch] has answered. *)
Definition trade_page (filepath : string) (new_batch : DataFrame)
    (loc : Locals) (st : State) : Outcome Step * State :=
  match new_batch with
  | [] => (Ok Break, st)
  | r :: rs =>
      let last_id := max_key r rs in
      let st1 := set_param "fromId" (VInt (last_id + 1)) st in
      let batches1 := batches loc ++ [new_batch] in
      flush_if_huge filepath last_id batches1 (df loc) st1
  end.

(** Lines 148-186: [while previous_id != last_id: ...]. *)
Fixpoint trade_loop (w : World) (fuel : nat) (filepath : string)
    (previous_id last_id : Z) (loc : Locals) (st : State)
    : Outcome Locals * State :=
  match fuel with
  | O => (OutOfFuel, st)
  | S fuel' =>
      if previous_id =? last_id then (Ok loc, st)
      else if (previous_id >=? last_id) && (previous_id >? 0) then (Ok loc, st)
      else
        let previous_id := last_id in
        match get_batch w fuel' "aggTrades" (timeout (args w)) st with
        | (Ok new_batch, st1) =>
            match trade_page filepath new_batch loc st1 with
            | (Ok Break, st2) => (Ok loc, st2)
            | (Ok (Continue last_id loc'), st2) =>
                trade_loop w fuel' filepath previous_id last_id loc' st2
            | (Raise e, st2) => (Raise e, st2)
            | (OutOfFuel, st2) => (OutOfFuel, st2)
            end
        | (Raise e, st1) => (Raise e, st1)
        | (OutOfFuel, st1) => (OutOfFuel, st1)
        end
  end.

(** Lines 189-209 and 273-293, the same code in both drivers: the final
    merge, the parquet snapshot and the final write.  Reading [df] while it
    is unbound raises [UnboundLocalError]; [data_type] is defined in no
    scope the drivers can see. *)
Definition finish_run (filepath base quote : string) (with_parquet : bool)
    (old_lines : Z) (loc : Locals) (st : State) : Outcome Z * State :=
  let df1 :=
    if len (batches loc) >? 1 then Some (prepare_df (batches loc))
    else df loc in
  let after_parquet : Outcome unit * State :=
    if with_parquet then
      let parquet_name := base +:+ "-" +:+ quote +:+ ".parquet" in
      let full_path := "compressed/" +:+ parquet_name in
      match df1 with
      | None => (Raise (UnboundLocalError "df"), st)
      | Some d =>
          (Raise (NameError "data_type"), write_raw_to_parquet d full_path st)
      end
    else (Ok tt, st) in
  match after_parquet with
  | (Ok _, st1) =>
      if len (batches loc) >? 1 then
        match df1 with
        | None => (Raise (UnboundLocalError "df"), st1)
        | Some d =>
            (Ok (len d - old_lines),
             append_to_csv (batches loc) d filepath st1)
        end
      else (Ok 0, st1)
  | (Raise e, st1) => (Raise e, st1)
  | (OutOfFuel, st1) => (OutOfFuel, st1)
  end.

Definition trade_filepath (base quote : string) : string :=
  "data/trade_" +:+ base +:+ "-" +:+ quote +:+ ".csv".

(** [all_trade_to_csv(base, quote, params, with_parquet)], lines 116-209. *)
Definition all_trade_to_csv (w : World) (fuel : nat) (base quote : string)
    (with_parquet : bool) (st : State) : Outcome Z * State :=
  let filepath := trade_filepath base quote in
  match trade_resume filepath st with
  | (Ok (batches0, last_id), st1) =>
      let old_lines := len (default [] (last batches0)) in
      let previous_id := -1 in
      match trade_loop w fuel filepath previous_id last_id
                       (mkLocals batches0 None) st1 with
      | (Ok loc, st2) =>
          finish_run filepath base quote with_parquet old_lines loc st2
      | (Raise e, st2) => (Raise e, st2)
      | (OutOfFuel, st2) => (OutOfFuel, st2)
      end
  | (Raise e, st1) => (Raise e, st1)
  | (OutOfFuel, st1) => (OutOfFuel, st1)
  end.

(** Lines 220-228: where the candle driver resumes.  On a History Store
    without rows the largest open time is NaN, which [date.fromtimestamp]
    refuses with a [ValueError] at the first test of the loop. *)
Definition candle_resume (filepath : string) (st : State)
    : Outcome (list DataFrame * Z) * State :=
  match files st !! filepath with
  | Some disk =>
      match column_max disk with
      | Some last_timestamp => (Ok ([disk], last_timestamp), st)
      | None => (Raise (ValueError "cursor is NaN"), st)
      end
  | None => (* except FileNotFoundError *)
      match param_int "startTime" st with
      | Ok last_timestamp => (Ok ([[]], last_timestamp), st)
      | Raise e => (Raise e, st)
      | OutOfFuel => (OutOfFuel, st)
      end
  end.

(** Lines 250-271: the candle loop body once [get_batch] has answered. *)
Definition candle_page (filepath : string) (previous_timestamp : Z)
    (new_batch : DataFrame) (loc : Locals) (st : State)
    : Outcome Step * State :=
  match new_batch with
  | [] => (Ok Break, st)
  | r :: rs =>
      let last_timestamp := max_key r rs in
      if previous_timestamp =? last_timestamp then (Ok Break, st)
      else
        let batches1 := batches loc ++ [new_batch] in
        flush_if_huge filepath last_timestamp batches1 (df loc) st
  end.

(** Lines 234-271: [while previous_timestamp != last_timestamp: ...];
    [previous_timestamp] starts as [None]. *)
Fixpoint candle_loop (w : World) (fuel : nat) (filepath : string)
    (previous_timestamp : option Z) (last_timestamp : Z) (loc : Locals)
    (st : State) : Outcome Locals * State :=
  match fuel with
  | O => (OutOfFuel, st)
  | S fuel' =>
      if bool_decide (previous_timestamp = Some last_timestamp)
      then (Ok loc, st)
      else
        match date_fromtimestamp w last_timestamp with
        | Ok day =>
            if day >=? today w then (Ok loc, st)
            else
              let previous_timestamp := last_timestamp in
              let st1 :=
                set_param "startTime" (VInt (last_timestamp + 1)) st in
              match get_batch w fuel' "klines" (VInt 30) st1 with
              | (Ok new_batch, st2) =>
                  match candle_page filepath previous_timestamp new_batch
                                    loc st2 with
                  | (Ok Break, st3) => (Ok loc, st3)
                  | (Ok (Continue last_timestamp loc'), st3) =>
                      candle_loop w fuel' filepath (Some previous_timestamp)
                                  last_timestamp loc' st3
                  | (Raise e, st3) => (Raise e, st3)
                  | (OutOfFuel, st3) => (OutOfFuel, st3)
                  end
              | (Raise e, st2) => (Raise e, st2)
              | (OutOfFuel, st2) => (OutOfFuel, st2)
              end
        | Raise e => (Raise e, st)
        | OutOfFuel => (OutOfFuel, st)
        end
  end.

Definition candle_filepath (base quote interval : string) : string :=
  "data/candle_" +:+ base +:+ "-" +:+ quote +:+ "_interval-" +:+ interval
  +:+ ".csv".

(** [all_candle_to_csv(base, quote, params, interval, with_parquet)],
    lines 211-293. *)
Definition all_candle_to_csv (w : World) (fuel : nat) (base quote interval : string)
    (with_parquet : bool) (st : State) : Outcome Z * State :=
  let filepath := candle_filepath base quote interval in
  match candle_resume filepath st with
  | (Ok (batches0, last_timestamp), st1) =>
      let old_lines := len (default [] (last batches0)) in
      match candle_loop w fuel filepath None last_timestamp
                        (mkLocals batches0 None) st1 with
      | (Ok loc, st2) =>
          finish_run filepath base quote with_parquet old_lines loc st2
      | (Raise e, st2) => (Raise e, st2)
      | (OutOfFuel, st2) => (OutOfFuel, st2)
      end
  | (Raise e, st1) => (Raise e, st1)
  | (OutOfFuel, st1) => (OutOfFuel, st1)
  end.

(** ** The run orchestrator *)

(** Lines 295-313: a fresh parameter dict, then the candle driver. *)
Definition get_historical_candlesticks (w : World) (fuel : nat) (base quote : string)
    (st : State) : Outcome Z * State :=
  let with_parquet := parquet (args w) in
  let symbol := base +:+ quote in
  let params0 : Params :=
    <["limit" := limit (args w)]>
      (<["startTime" := VInt (start_at (args w))]>
         (<["interval" := VStr (interval (args w))]>
            (<["symbol" := VStr symbol]> ∅))) in
  all_candle_to_csv w fuel base quote (interval (args w)) with_parquet
    (mkState params0 (files st) (calls st) (trace st)).

(** Lines 315-330: a fresh parameter dict, then the trade driver. *)
Definition get_historical_agg_trades (w : World) (fuel : nat) (base quote : string)
    (st : State) : Outcome Z * State :=
  let with_parquet := parquet (args w) in
  let symbol := base +:+ quote in
  let params0 : Params :=
    <["limit" := limit (args w)]>
      (<["fromId" := VInt (start_at (args w))]>
         (<["symbol" := VStr symbol]> ∅)) in
  all_trade_to_csv w fuel base quote with_parquet
    (mkState params0 (files st) (calls st) (trace st)).

(** Lines 362-376: the loop of [main] over the shuffled [all_pairs].
    [new_lines] is a local of [main]: unbound until a driver has returned. *)
Fixpoint main_loop (w : World) (fuel : nat) (all_pairs : list (list string))
    (new_lines : option Z) (st : State) : Outcome unit * State :=
  match all_pairs with
  | [] => (Ok tt, st)
  | pair_ :: rest =>
      match pair_ with
      | [base; quote] =>
          let data_type := dtype (args w) in
          let fetched : Outcome (option Z) * State :=
            if String.eqb data_type "candle" then
              match get_historical_candlesticks w fuel base quote st with
              | (Ok n, st1) => (Ok (Some n), st1)
              | (Raise e, st1) => (Raise e, st1)
              | (OutOfFuel, st1) => (OutOfFuel, st1)
              end
            else if String.eqb data_type "trade" then
              match get_historical_agg_trades w fuel base quote st with
              | (Ok n, st1) => (Ok (Some n), st1)
              | (Raise e, st1) => (Raise e, st1)
              | (OutOfFuel, st1) => (OutOfFuel, st1)
              end
            else (Ok new_lines, st) in
          match fetched with
          | (Ok None, st1) => (Raise (UnboundLocalError "new_lines"), st1)
          | (Ok (Some n), st1) =>
              main_loop w fuel rest (Some n)
                        (log (EvReport (n >? 0) n base quote) st1)
          | (Raise e, st1) => (Raise e, st1)
          | (OutOfFuel, st1) => (OutOfFuel, st1)
          end
      | _ => (* base, quote = pair *)
          (Raise (ValueError "unpack"), st)
      end
  end.


(** ** Scenarios

    Concrete data sources and runs, used to exercise the model. *)

(** A data source that answers the [n]-th network call with the [n]-th
    entry of a script, and with an empty page once the script is over. *)
Definition script_net (script : list NetResult) (n : nat) (api_path : string)
    (p : Params) : NetResult :=
  nth n script (NetResponse 200 []).

Definition no_time (n : nat) : TimeResult := TimeBody None.

(** A page of [n] consecutive records starting at key [start]. *)
Fixpoint page_from (start : Z) (n : nat) : DataFrame :=
  match n with
  | O => []
  | S n' => mkRow start [] :: page_from (start + 1) n'
  end.

(** Default arguments: [--dtype trade], limit 1000, start 0. *)
Definition trade_args : Args :=
  mkArgs "trade" "1m" (VInt 1000) 0 false (VInt 30).

Definition candle_args : Args :=
  mkArgs "candle" "1m" (VInt 1000) 0 false (VInt 30).

(** No credentials, today is day 20000 (2024-10-04), UTC. *)
Definition world_of (net : nat -> string -> Params -> NetResult)
    (args : Args) : World :=
  mkWorld None None net no_time 20000 0 args.

Definition fresh_state : State := mkState ∅ ∅ 0 [].

(** Parameter dicts as [get_historical_agg_trades] and
    [get_historical_candlesticks] build them for BTC-USDT. *)
Definition trade_params (from_id : Z) : Params :=
  <["limit" := VInt 1000]>
    (<["fromId" := VInt from_id]> (<["symbol" := VStr "BTCUSDT"]> ∅)).

Definition candle_params (start_time : Z) : Params :=
  <["limit" := VInt 1000]>
    (<["startTime" := VInt start_time]>
       (<["interval" := VStr "1m"]> (<["symbol" := VStr "BTCUSDT"]> ∅))).

(** The data source answers 429 (rate limited). *)
Definition rate_limited_world : World :=
  world_of (script_net [NetResponse 429 []]) trade_args.

(** Three transient failures, one of each kind, then a page. *)
Definition flaky_world : World :=
  world_of (script_net [NetRaise ConnectionError; NetRaise Timeout;
                        NetRaise ConnectionResetError;
                        NetResponse 200 (page_from 0 3)]) trade_args.

(** One page of three trades, then nothing more; [--parquet] given. *)
Definition parquet_world : World :=
  world_of (script_net [NetResponse 200 (page_from 0 3)])
           (mkArgs "trade" "1m" (VInt 1000) 0 true (VInt 30)).

(** [--dtype trades]: neither ['candle'] nor ['trade']. *)
Definition typo_world : World :=
  world_of (script_net []) (mkArgs "trades" "1m" (VInt 1000) 0 false (VInt 30)).

(** Credentials configured; the [time] endpoint answers. *)
Definition signed_world : World :=
  mkWorld (Some "key") (Some "secret")
          (script_net [NetResponse 200 []; NetResponse 200 (page_from 0 3)])
          (fun _ => TimeBody (Some 1700000000000)) 20000 0 trade_args.

(** A first candle run: no History Store yet, start timestamp
    2017-07-14T02:40:00Z, the data source has three one-minute candles. *)
Definition first_candle_run : Outcome Z * State :=
  all_candle_to_csv
    (world_of (script_net
                 [NetResponse 200
                    [mkRow 1500000060000 []; mkRow 1500000120000 [];
                     mkRow 1500000180000 []]])
              candle_args)
    5 "BTC" "USDT" "1m" false
    (mkState (candle_params 1500000000000) ∅ 0 []).

(** A trade run that resumes from a History Store ending at trade 41. *)
Definition resumed_trade_world : World :=
  world_of (script_net [NetResponse 200 (page_from 42 3)]) trade_args.

Definition resumed_trade_state : State :=
  mkState (trade_params 0)
          {[ "data/trade_BTC-USDT.csv" := page_from 0 42 ]} 0 [].

(** A data source holding consecutive trades, served in full pages of 1000
    rows: the [n]-th page, and nothing after [pages] pages. *)
Definition full_pages (pages : nat) : list NetResult :=
  map (fun i => NetResponse 200 (page_from (1000 * Z.of_nat i) 1000))
      (seq 0 pages).

(** A first trade run (no History Store, [fromId = 0], limit 1000) against a
    source of four full pages. *)
Definition four_page_run : Outcome Z * State :=
  all_trade_to_csv (world_of (script_net (full_pages 4)) trade_args)
    10 "BTC" "USDT" false (mkState (trade_params 0) ∅ 0 []).

(** The same first trade run against a source of five full pages. *)
Definition five_page_run : Outcome Z * State :=
  all_trade_to_csv (world_of (script_net (full_pages 5)) trade_args)
    10 "BTC" "USDT" false (mkState (trade_params 0) ∅ 0 []).

(** [n] one-minute candles, the first one opening at [start] (ms). *)
Fixpoint candles_from (start : Z) (n : nat) : DataFrame :=
  match n with
  | O => []
  | S n' => mkRow start [] :: candles_from (start + 60000) n'
  end.

(** A candle run that resumes from a History Store of 5000 candles against
    a source that has 6000 more, served in six full pages. *)
Definition candle_store : DataFrame := candles_from 1500000000000 5000.

Definition six_candle_pages : list NetResult :=
  map (fun i => NetResponse 200
                  (candles_from (1500300000000 + 60000000 * Z.of_nat i) 1000))
      (seq 0 6).

Definition resumed_candle_run : Outcome Z * State :=
  all_candle_to_csv (world_of (script_net six_candle_pages) candle_args)
    10 "BTC" "USDT" "1m" false
    (mkState (candle_params 0)
             {[ candle_filepath "BTC" "USDT" "1m" := candle_store ]} 0 []).

(** A candle run that resumes from a History Store of three candles; the
    data source follows [script]. *)
Definition small_candle_store : DataFrame := candles_from 1500000000000 3.

Definition stale_candle_page : DataFrame := candles_from 1500000060000 1.

Definition stale_candle_run (script : list NetResult) : Outcome Z * State :=
  all_candle_to_csv (world_of (script_net script) candle_args)
    10 "BTC" "USDT" "1m" false
    (mkState (candle_params 0)
             {[ candle_filepath "BTC" "USDT" "1m" := small_candle_store ]}
             0 []).

(** ** Predicates on events *)

(** A data request that still carries the entries of [p0], the two entries
    of the signing path apart. *)
Definition request_keeps (p0 : Params) (e : Event) : Prop :=
  forall p : Params, is_request e = Some p ->
  forall k, k <> "signiature" -> k <> "timestamp" -> p !! k = p0 !! k.

(** A data request signed with [secret]. *)
Definition signed (secret : string) (e : Event) : Prop :=
  forall p : Params, is_request e = Some p ->
  p !! "signiature" = Some (VHash secret) /\
  exists t, p !! "timestamp" = Some (VInt t).

(** A data request whose parameters have an entry for [k]. *)
Definition carries (k : string) (e : Event) : Prop :=
  forall p : Params, is_request e = Some p -> is_Some (p !! k).

(** Events of an attempt that fails with [e]: the request, the message and
    the five-minute sleep. *)
Definition failed_attempt (api_path : string) (p : Params) (timeout : Value)
    (e : NetExn) : list Event :=
  [EvRequest api_path p timeout None; EvPrint (cooldown_message e);
   EvSleep 300].

(** ** A data source that has nothing new *)

(** The answer [r] to a trade request with parameters [p] brings no
    progress: it is a response, and when its status is 200 and its page is
    not empty, the largest trade id of the page is a trade id (not negative)
    below the [fromId] asked for. *)
Definition trade_quiet (p : Params) (r : NetResult) : Prop :=
  exists status_code json, r = NetResponse status_code json /\
    (status_code = 200 -> forall m, column_max json = Some m ->
       0 <= m /\ exists c, p !! "fromId" = Some (VInt c) /\ m < c).

(** The answer [r] to a candle request with parameters [p] brings no
    progress: it is a response, and when its status is 200 and its page is
    not empty, the largest open time of the page is the cursor, one below
    the [startTime] asked for. *)
Definition candle_quiet (p : Params) (r : NetResult) : Prop :=
  exists status_code json, r = NetResponse status_code json /\
    (status_code = 200 -> forall m, column_max json = Some m ->
       p !! "startTime" = Some (VInt (m + 1))).

(** A fully fetched instrument: every request is answered with the last
    record before the cursor asked for (nothing when that cursor is 0). *)
Definition echo_net (n : nat) (api_path : string) (p : Params) : NetResult :=
  let cursor :=
    if String.eqb api_path "klines" then p !! "startTime" else p !! "fromId" in
  match cursor with
  | Some (VInt c) =>
      if c >? 0 then NetResponse 200 [mkRow (c - 1) []]
      else NetResponse 200 []
  | _ => NetResponse 400 []
  end.

Definition echo_world : World := world_of echo_net trade_args.

(** ** More scenarios *)

(** A candle run over a History Store whose last candle opens on day 20000,
    the day the scenarios take for today. *)
Definition today_store : DataFrame := candles_from 1728000000000 2.

Definition today_state : State :=
  mkState (candle_params 0)
          {[ candle_filepath "BTC" "USDT" "1m" := today_store ]} 0 [].

(** The source repeats the last candle of [small_candle_store]: the next
    candle has not closed yet. *)
Definition unclosed_candle_run : Outcome Z * State :=
  stale_candle_run [NetResponse 200 (candles_from 1500000120000 1)].

(** [--limit 500] on the command line: the limit is the string ['500']. *)
Definition string_limit_world : World :=
  world_of (script_net [NetResponse 200 (page_from 0 500)])
           (mkArgs "trade" "1m" (VStr "500") 0 false (VInt 30)).

(** ** Which files a run may touch *)

(** [e] is no write, or a write to the History Store [filepath], or a
    write of the snapshot, when one is allowed. *)
Definition writes_to (filepath : string) (snapshot : option string)
    (e : Event) : Prop :=
  match e with
  | EvAppendCsv f _ _ => f = filepath
  | EvParquet f _ => snapshot = Some f
  | _ => True
  end.

(** From [st] to [st'] the trace has only grown, by events that write to
    [filepath] or [snapshot] at most; every other file is as it was, and the
    History Store has only grown at its end. *)
Definition touches_only (filepath : string) (snapshot : option string)
    (st st' : State) : Prop :=
  (exists t, trace st' = trace st ++ t /\
             Forall (writes_to filepath snapshot) t) /\
  (forall f, f <> filepath -> snapshot <> Some f ->
             files st' !! f = files st !! f) /\
  (snapshot <> Some filepath ->
   exists added,
     default [] (files st' !! filepath)
     = default [] (files st !! filepath) ++ added).

Definition parquet_path (base quote : string) : string :=
  "compressed/" +:+ (base +:+ "-" +:+ quote +:+ ".parquet").

(** [page] is a page of data that the source has sent: the body, not
    empty, of a 200 response to some request on [api_path]. *)
Definition from_source (w : World) (api_path : string) (page : DataFrame)
    : Prop :=
  page <> [] /\ exists n p, net w n api_path p = NetResponse 200 page.

(** ** The cursors a run asks for *)

(** Query parameters of the data requests of a trace, retries included, in
    the order they were sent. *)
Definition requests (t : list Event) : list Params := omap is_request t.

(** [cs] are the values of the parameter [k] in the data requests of [t],
    all of them integers. *)
Definition cursors_of (k : string) (t : list Event) (cs : list Z) : Prop :=
  (fun p : Params => p !! k) <$> requests t
  = (fun c => Some (VInt c)) <$> cs.

(** Trades 0..9, served in two pages; the second request fails once. *)
Definition retried_world : World :=
  world_of (script_net [NetResponse 200 (page_from 0 5); NetRaise Timeout;
                        NetResponse 200 (page_from 5 5)]) trade_args.

(** ** The instrument list of [main] *)

(** [s.split(sep)] for a one-character separator: the pieces between the
    occurrences of [sep], empty pieces included; never an empty list. *)
Fixpoint str_split (sep : Ascii.ascii) (s : string) : list string :=
  match s with
  | EmptyString => [EmptyString]
  | String c s' =>
      if Ascii.eqb c sep then EmptyString :: str_split sep s'
      else
        match str_split sep s' with
        | [] => [String c EmptyString]
        | piece :: pieces => String c piece :: pieces
        end
  end.

(** [sep.join(l)] *)
Fixpoint str_join (sep : string) (l : list string) : string :=
  match l with
  | [] => EmptyString
  | [x] => x
  | x :: l' => x +:+ sep +:+ str_join sep l'
  end.

(** Number of occurrences of [c] in [s]. *)
Fixpoint count_char (c : Ascii.ascii) (s : string) : nat :=
  match s with
  | EmptyString => O
  | String c' s' =>
      if Ascii.eqb c' c then S (count_char c s') else count_char c s'
  end.

(** The separators of the instrument list: [','] and ['-']. *)
Definition comma : Ascii.ascii := Ascii.ascii_of_nat 44.
Definition dash : Ascii.ascii := Ascii.ascii_of_nat 45.

(** Line 349, [pairs] being [args.pairs] without its whitespace:
    [[tuple(pair.split('-')) for pair in pairs.split(',')]]. *)
Definition parse_pairs (pairs : string) : list (list string) :=
  map (str_split dash) (str_split comma pairs).

(** The [--pairs] argument that names the instruments of [l]. *)
Definition format_pairs (l : list (string * string)) : string :=
  str_join "," (map (fun bq => fst bq +:+ "-" +:+ snd bq) l).

(** A name that holds neither of the two separators. *)
Definition plain_name (s : string) : Prop :=
  count_char comma s = O /\ count_char dash s = O.

(** [--parquet] given, two instruments to fetch. *)
Definition parquet_candle_world : World :=
  world_of (script_net [NetResponse 200 (candles_from 1500000000000 3)])
           (mkArgs "candle" "1m" (VInt 1000) 0 true (VInt 30)).

(** ** States that differ in one parameter *)

(** [st] and [st'] are the same but for the entry [k] of the dict. *)
Definition agree_but (k : string) (st st' : State) : Prop :=
  files st = files st' /\ calls st = calls st' /\ trace st = trace st' /\
  forall k', k' <> k -> params st !! k' = params st' !! k'.

(** ** The progress reports of [main] *)

(** The reports of a trace, in order: whether new lines were announced
    ("Wrote ... new lines" rather than "Already up to date"), the count, and
    the instrument. *)
Definition reports (t : list Event) : list (bool * Z * list string) :=
  omap (fun e => match e with
                 | EvReport wrote n base quote => Some (wrote, n, [base; quote])
                 | _ => None
                 end) t.

(** Two instruments, one page of trades for the first, none for the
    second. *)
Definition two_pair_world : World :=
  world_of (script_net [NetResponse 200 (page_from 0 3)]) trade_args.

(** ** Basic facts about the trace and the state *)

Lemma first_request_app (t1 t2 : list Event) :
  first_request (t1 ++ t2) =
  match first_request t1 with
  | Some p => Some p
  | None => first_request t2
  end.
Proof.
  induction t1 as [|e t1 IH]; simpl; [reflexivity|].
  destruct (is_request e); [reflexivity | exact IH].
Qed.

Lemma new_events_app (st st' : State) (t : list Event) :
  trace st' = trace st ++ t -> new_events st st' = t.
Proof.
  intros H. unfold new_events. rewrite H. apply drop_app_length.
Qed.

Lemma new_events_refl (st : State) : new_events st st = [].
Proof. apply new_events_app. symmetry. apply app_nil_r. Qed.

Lemma param_int_Ok (k : string) (st : State) (n : Z) :
  params st !! k = Some (VInt n) -> param_int k st = Ok n.
Proof. intros H. unfold param_int. rewrite H. reflexivity. Qed.

Lemma param_int_not_OutOfFuel (k : string) (st : State) :
  param_int k st <> OutOfFuel.
Proof.
  unfold param_int. destruct (params st !! k) as [[]|]; discriminate.
Qed.

Lemma date_fromtimestamp_not_OutOfFuel (w : World) (ms : Z) :
  date_fromtimestamp w ms <> OutOfFuel.
Proof.
  unfold date_fromtimestamp. destruct (_ || _); discriminate.
Qed.

Lemma column_max_nil_inv (d : DataFrame) : column_max d = None -> d = [].
Proof. destruct d; [reflexivity | discriminate]. Qed.

(** ** The batch fetcher *)

(** One pass through the [try] block: which parts of the state it touches
    and what it logs. *)
Lemma try_block_spec (w : World) (api_path : string) (timeout : Value)
    (st : State) (r : TryResult) (st' : State) :
  try_block w api_path timeout st = (r, st') ->
  files st' = files st /\
  (calls st < calls st')%nat /\
  (forall k, k <> "signiature" -> k <> "timestamp" ->
             params st' !! k = params st !! k) /\
  exists t, trace st' = trace st ++ t /\
    Forall (fun e => is_write e = false) t /\
    Forall (fun e => forall p, is_request e = Some p -> p = params st') t /\
    (forall s j, r = Response s j -> first_request t = Some (params st')).
Proof.
  unfold try_block, requests_get. intros H.
  destruct (API_KEY w) as [k|], (API_SECRET w) as [sec|];
    try (destruct (net w (calls st) api_path (params st)) eqn:Hn;
         simplify_eq; simpl;
         (split; [reflexivity|]); (split; [lia|]); (split; [reflexivity|]);
         eexists; (split; [reflexivity|]);
         repeat split; repeat constructor; simpl; intros; congruence).
  destruct (time_net w (calls st)) as [e|[t|]] eqn:Ht.
  - simplify_eq; simpl.
    split; [reflexivity|]. split; [lia|]. split; [reflexivity|].
    eexists; split; [reflexivity|].
    repeat split; repeat constructor; simpl; intros; congruence.
  - match type of H with
    | context [net w ?c ?a ?p] => destruct (net w c a p) eqn:Hn
    end; simplify_eq; simpl;
    (split; [reflexivity|]); (split; [lia|]);
    (split; [intros; rewrite !lookup_insert_ne by congruence; reflexivity|]);
    eexists; (split; [rewrite <- app_assoc; reflexivity|]);
    repeat split; repeat constructor; simpl; intros; congruence.
  - simplify_eq; simpl.
    split; [reflexivity|]. split; [lia|]. split; [reflexivity|].
    eexists; split; [reflexivity|].
    repeat split; repeat constructor; simpl; intros; congruence.
Qed.

(** A whole call of [get_batch], retries included. *)
Lemma get_batch_spec (w : World) (fuel : nat) (api_path : string)
    (timeout : Value) :
  forall (st : State) (out : Outcome DataFrame) (st' : State),
  get_batch w fuel api_path timeout st = (out, st') ->
  files st' = files st /\
  (calls st <= calls st')%nat /\
  (forall k, k <> "signiature" -> k <> "timestamp" ->
             params st' !! k = params st !! k) /\
  exists t, trace st' = trace st ++ t /\
    Forall (fun e => is_write e = false) t /\
    Forall (request_keeps (params st)) t /\
    (forall page, out = Ok page ->
       first_request t <> None /\ (calls st < calls st')%nat).
Proof.
  induction fuel as [|fuel IH]; intros st out st' H; simpl in H.
  - simplify_eq. split; [reflexivity|]. split; [lia|]. split; [reflexivity|].
    exists []. rewrite app_nil_r. repeat split; try constructor; discriminate.
  - destruct (try_block w api_path timeout st) as [r st1] eqn:Htry.
    apply try_block_spec in Htry as (Hf & Hc & Hp & t1 & Ht1 & Hw1 & Hr1 & Hfr).
    assert (Hk1 : Forall (request_keeps (params st)) t1).
    { eapply Forall_impl; [exact Hr1|]. intros e He p Hp' k Hs Ht.
      rewrite (He p Hp'). apply Hp; assumption. }
    destruct r as [e|e|status json].
    + apply IH in H as (Hf2 & Hc2 & Hp2 & t2 & Ht2 & Hw2 & Hr2 & Hok).
      simpl in *.
      split; [congruence|]. split; [lia|].
      split; [intros; rewrite Hp2, Hp by assumption; reflexivity|].
      exists (t1 ++ [EvPrint (cooldown_message e); EvSleep (5 * 60)] ++ t2).
      split; [rewrite Ht2, Ht1; rewrite <- !app_assoc; reflexivity|].
      split; [repeat (apply Forall_app; split); auto; repeat constructor|].
      split.
      * repeat (apply Forall_app; split); auto.
        -- repeat constructor; intros p; discriminate.
        -- eapply Forall_impl; [exact Hr2|]. intros ev He p Hp' k Hs Ht.
           rewrite (He p Hp' k Hs Ht). apply Hp; assumption.
      * intros page ->. destruct (Hok page eq_refl) as [Hne Hlt].
        split; [|lia].
        rewrite !first_request_app. destruct (first_request t1); [discriminate|].
        simpl. exact Hne.
    + simplify_eq. split; [assumption|]. split; [lia|]. split; [assumption|].
      exists t1. repeat split; auto; discriminate.
    + assert (Hfr' := Hfr status json eq_refl).
      destruct (status =? 200); simplify_eq; simpl.
      * split; [assumption|]. split; [lia|]. split; [assumption|].
        exists t1. repeat split; auto; try congruence; lia.
      * split; [assumption|]. split; [lia|]. split; [assumption|].
        exists (t1 ++ [EvPrint "Got erroneous response back"]).
        split; [rewrite Ht1, <- app_assoc; reflexivity|].
        split; [apply Forall_app; split; auto; repeat constructor|].
        split; [apply Forall_app; split; auto; repeat constructor;
                intros p; discriminate|].
        intros page _. split; [|lia].
        rewrite first_request_app, Hfr'. discriminate.
Qed.

(** ** One pass through a loop body *)

Lemma flush_if_huge_spec (filepath : string) (last : Z)
    (batches1 : list DataFrame) (df0 : option DataFrame) (st : State)
    (out : Outcome Step) (st' : State) :
  flush_if_huge filepath last batches1 df0 st = (out, st') ->
  params st' = params st /\ calls st' = calls st /\
  (exists t, trace st' = trace st ++ t /\ first_request t = None) /\
  out <> OutOfFuel /\ out <> Ok Break /\
  (forall l loc, out = Ok (Continue l loc) -> l = last).
Proof.
  unfold flush_if_huge. intros H.
  pose proof (param_int_not_OutOfFuel "limit" st) as Hne.
  destruct (param_int "limit" st) as [l|e|]; [| |congruence].
  - destruct (len batches1 * l >=? 5000); simplify_eq; simpl;
      split_and!; try discriminate; try congruence.
    + eexists; split; [reflexivity | reflexivity].
    + exists []; split; [symmetry; apply app_nil_r | reflexivity].
  - simplify_eq. split_and!; try discriminate; auto.
    exists []; split; [symmetry; apply app_nil_r | reflexivity].
Qed.

Lemma trade_page_spec (filepath : string) (new_batch : DataFrame)
    (loc : Locals) (st : State) (out : Outcome Step) (st' : State) :
  trade_page filepath new_batch loc st = (out, st') ->
  calls st' = calls st /\
  (exists t, trace st' = trace st ++ t /\ first_request t = None) /\
  out <> OutOfFuel /\
  (out = Ok Break -> new_batch = [] /\ st' = st) /\
  (forall l loc', out = Ok (Continue l loc') ->
     column_max new_batch = Some l /\
     params st' = <["fromId" := VInt (l + 1)]> (params st)).
Proof.
  unfold trade_page. intros H. destruct new_batch as [|r rs].
  - simplify_eq. split_and!; try discriminate; auto.
    exists []; split; [symmetry; apply app_nil_r | reflexivity].
  - apply flush_if_huge_spec in H as (Hp & Hc & Ht & Hne & Hnb & Hl).
    simpl in *. split_and!; try assumption; try congruence.
    intros l loc' ->. rewrite (Hl _ _ eq_refl). split; [reflexivity|].
    exact Hp.
Qed.

Lemma candle_page_spec (filepath : string) (previous_timestamp : Z)
    (new_batch : DataFrame) (loc : Locals) (st : State) (out : Outcome Step)
    (st' : State) :
  candle_page filepath previous_timestamp new_batch loc st = (out, st') ->
  calls st' = calls st /\ params st' = params st /\
  (exists t, trace st' = trace st ++ t /\ first_request t = None) /\
  out <> OutOfFuel /\
  (out = Ok Break ->
     st' = st /\
     (new_batch = [] \/ column_max new_batch = Some previous_timestamp)) /\
  (forall l loc', out = Ok (Continue l loc') ->
     column_max new_batch = Some l /\ l <> previous_timestamp).
Proof.
  unfold candle_page. intros H. destruct new_batch as [|r rs].
  - simplify_eq. split_and!; try discriminate; auto.
    exists []; split; [symmetry; apply app_nil_r | reflexivity].
  - destruct (previous_timestamp =? max_key r rs) eqn:E.
    + apply Z.eqb_eq in E. simplify_eq. split_and!; try discriminate; auto.
      exists []; split; [symmetry; apply app_nil_r | reflexivity].
    + apply Z.eqb_neq in E.
      apply flush_if_huge_spec in H as (Hp & Hc & Ht & Hne & Hnb & Hl).
      split_and!; try assumption; try congruence.
      intros l loc' ->. rewrite (Hl _ _ eq_refl).
      split; [reflexivity | congruence].
Qed.

(** ** The loops only ever extend the trace *)

Lemma trade_loop_trace (w : World) (fuel : nat) (filepath : string) :
  forall previous_id last_id loc st,
  exists t, trace (snd (trade_loop w fuel filepath previous_id last_id loc st))
            = trace st ++ t.
Proof.
  induction fuel as [|fuel IH]; intros previous_id last_id loc st; simpl.
  - exists []. symmetry. apply app_nil_r.
  - destruct (previous_id =? last_id);
      [exists []; symmetry; apply app_nil_r|].
    destruct ((previous_id >=? last_id) && (previous_id >? 0));
      [exists []; symmetry; apply app_nil_r|].
    destruct (get_batch w fuel "aggTrades" (timeout (args w)) st)
      as [out st1] eqn:Hg.
    apply get_batch_spec in Hg as (_ & _ & _ & t1 & Ht1 & _).
    destruct out as [new_batch|e|]; simpl; eauto.
    destruct (trade_page filepath new_batch loc st1) as [o st2] eqn:Hp.
    apply trade_page_spec in Hp as (_ & (t2 & Ht2 & _) & _).
    assert (Hx : trace st2 = trace st ++ (t1 ++ t2))
      by (rewrite Ht2, Ht1, app_assoc; reflexivity).
    destruct o as [[|l loc']|e|]; simpl; eauto.
    destruct (IH last_id l loc' st2) as [t3 Ht3].
    exists (t1 ++ t2 ++ t3). rewrite Ht3, Hx, <- !app_assoc. reflexivity.
Qed.

Lemma candle_loop_trace (w : World) (fuel : nat) (filepath : string) :
  forall previous_timestamp last_timestamp loc st,
  exists t,
    trace (snd (candle_loop w fuel filepath previous_timestamp last_timestamp
                            loc st))
    = trace st ++ t.
Proof.
  induction fuel as [|fuel IH];
    intros previous_timestamp last_timestamp loc st; simpl.
  - exists []. symmetry. apply app_nil_r.
  - destruct (bool_decide (previous_timestamp = Some last_timestamp));
      [exists []; symmetry; apply app_nil_r|].
    destruct (date_fromtimestamp w last_timestamp) as [day|e|];
      try (exists []; symmetry; apply app_nil_r).
    destruct (day >=? today w); [exists []; symmetry; apply app_nil_r|].
    destruct (get_batch w fuel "klines" (VInt 30) _) as [out st1] eqn:Hg.
    apply get_batch_spec in Hg as (_ & _ & _ & t1 & Ht1 & _).
    simpl in Ht1.
    destruct out as [new_batch|e|]; simpl; eauto.
    destruct (candle_page filepath last_timestamp new_batch loc st1)
      as [o st2] eqn:Hp.
    apply candle_page_spec in Hp as (_ & _ & (t2 & Ht2 & _) & _).
    assert (Hx : trace st2 = trace st ++ (t1 ++ t2))
      by (rewrite Ht2, Ht1, app_assoc; reflexivity).
    destruct o as [[|l loc']|e|]; simpl; eauto.
    destruct (IH (Some last_timestamp) l loc' st2) as [t3 Ht3].
    exists (t1 ++ t2 ++ t3). rewrite Ht3, Hx, <- !app_assoc. reflexivity.
Qed.

(** The events of one pass through the [try] block: at most one request to
    the [time] endpoint, then at most one data request, and nothing else. *)
Lemma try_block_kinds (w : World) (api_path : string) (timeout : Value)
    (st : State) (r : TryResult) (st' : State) :
  try_block w api_path timeout st = (r, st') ->
  exists t, trace st' = trace st ++ t /\
    (map kind t = [KTime] /\ (forall s j, r <> Response s j) \/
     map kind t = [KRequest] \/ map kind t = [KTime; KRequest]).
Proof.
  unfold try_block, requests_get. intros H.
  destruct (API_KEY w) as [k|], (API_SECRET w) as [sec|];
    try (destruct (net w (calls st) api_path (params st));
         simplify_eq; simpl; eexists; (split; [reflexivity|]);
         right; left; reflexivity).
  destruct (time_net w (calls st)) as [e|[t|]].
  - simplify_eq; simpl. eexists; split; [reflexivity|]. left.
    split; [reflexivity | discriminate].
  - match type of H with
    | context [net w ?c ?a ?p] => destruct (net w c a p)
    end; simplify_eq; simpl;
    (eexists; split; [rewrite <- app_assoc; reflexivity|]);
    right; right; reflexivity.
  - simplify_eq; simpl. eexists; split; [reflexivity|]. left.
    split; [reflexivity | discriminate].
Qed.

(** [get_batch] lets no exception through except the missing
    ['serverTime'] entry of the signing path. *)
Lemma get_batch_raises (w : World) (fuel : nat) (api_path : string)
    (timeout : Value) :
  forall (st : State) (e : Exn),
  fst (get_batch w fuel api_path timeout st) = Raise e ->
  e = KeyError "serverTime".
Proof.
  induction fuel as [|fuel IH]; intros st e; simpl; [discriminate|].
  destruct (try_block w api_path timeout st) as [r st1] eqn:Htry.
  destruct r as [ne|e'|status json].
  - apply IH.
  - simpl. unfold try_block, requests_get in Htry.
    destruct (API_KEY w), (API_SECRET w);
      try (destruct (net w _ _ _); discriminate).
    destruct (time_net w (calls st)) as [?|[?|]];
      try (destruct (net w _ _ _); discriminate); congruence.
  - destruct (status =? 200); discriminate.
Qed.

(** Without credentials the [try] block is one data request. *)
Lemma try_block_unsigned (w : World) (api_path : string) (timeout : Value)
    (st : State) :
  API_KEY w = None \/ API_SECRET w = None ->
  try_block w api_path timeout st =
  (match net w (calls st) api_path (params st) with
   | NetRaise e => Caught e
   | NetResponse status_code json => Response status_code json
   end,
   tick (log (EvRequest api_path (params st) timeout None) st)).
Proof.
  unfold try_block, requests_get. intros [H|H]; rewrite H.
  - destruct (net w _ _ _); reflexivity.
  - destruct (API_KEY w); destruct (net w _ _ _); reflexivity.
Qed.

Lemma get_batch_after_failures (w : World) (api_path : string)
    (timeout : Value) (json : DataFrame) (es : list NetExn) :
  API_KEY w = None \/ API_SECRET w = None ->
  forall (st : State) (fuel : nat),
  (forall i e, es !! i = Some e ->
     net w (calls st + i)%nat api_path (params st) = NetRaise e) ->
  net w (calls st + length es)%nat api_path (params st)
    = NetResponse 200 json ->
  (length es < fuel)%nat ->
  get_batch w fuel api_path timeout st =
  (Ok json,
   mkState (params st) (files st) (calls st + S (length es))
     (trace st
      ++ concat (map (failed_attempt api_path (params st) timeout) es)
      ++ [EvRequest api_path (params st) timeout None])).
Proof.
  intros Hcred. induction es as [|e es IH]; intros st fuel Hfail Hresp Hfuel.
  - destruct fuel as [|fuel]; [simpl in Hfuel; lia|]. simpl.
    rewrite (try_block_unsigned _ _ _ _ Hcred).
    simpl in Hresp. rewrite Nat.add_0_r in Hresp. rewrite Hresp. simpl.
    unfold tick, log; simpl. do 2 f_equal. lia.
  - destruct fuel as [|fuel]; [simpl in Hfuel; lia|].
    simpl get_batch. rewrite (try_block_unsigned _ _ _ _ Hcred).
    pose proof (Hfail 0%nat e eq_refl) as H0. rewrite Nat.add_0_r in H0.
    rewrite H0.
    rewrite IH.
    + simpl. f_equal. f_equal; [lia|].
      rewrite <- !app_assoc. reflexivity.
    + intros i e' Hi. pose proof (Hfail (S i) e' Hi) as H1.
      rewrite Nat.add_succ_r in H1. exact H1.
    + simpl in Hresp. rewrite Nat.add_succ_r in Hresp. exact Hresp.
    + simpl in Hfuel. lia.
Qed.

Lemma get_batch_never_returns (w : World) (api_path : string)
    (timeout : Value) :
  API_KEY w = None \/ API_SECRET w = None ->
  (forall n p, exists e, net w n api_path p = NetRaise e) ->
  forall (fuel : nat) (st : State),
  fst (get_batch w fuel api_path timeout st) = OutOfFuel /\
  sleeps (new_events st (snd (get_batch w fuel api_path timeout st)))
  = replicate fuel 300.
Proof.
  intros Hcred Hnet. induction fuel as [|fuel IH]; intros st.
  - simpl. rewrite new_events_refl. split; reflexivity.
  - simpl get_batch. rewrite (try_block_unsigned _ _ _ _ Hcred).
    destruct (Hnet (calls st) (params st)) as [e He]. rewrite He.
    match goal with |- context [get_batch w fuel api_path timeout ?s] =>
      set (st3 := s) end.
    destruct (IH st3) as [Hout Hlen]. split; [exact Hout|].
    destruct (get_batch_spec w fuel api_path timeout st3 _ _
                (surjective_pairing _)) as (_ & _ & _ & t & Ht & _).
    rewrite (new_events_app _ _ _ Ht) in Hlen.
    erewrite new_events_app.
    2:{ rewrite Ht. subst st3. simpl. rewrite <- !app_assoc. reflexivity. }
    simpl. unfold sleeps in *. simpl. f_equal. exact Hlen.
Qed.

(** ** The end of a run *)

(** With [with_parquet] set, the code after the loop always raises. *)
Lemma finish_run_parquet (filepath base quote : string) (old_lines : Z)
    (loc : Locals) (st : State) :
  (df loc = None /\ len (batches loc) <= 1 /\
   finish_run filepath base quote true old_lines loc st
   = (Raise (UnboundLocalError "df"), st)) \/
  (exists d,
     (if len (batches loc) >? 1 then Some (prepare_df (batches loc))
      else df loc) = Some d /\
     finish_run filepath base quote true old_lines loc st
     = (Raise (NameError "data_type"),
        write_raw_to_parquet d
          ("compressed/" +:+ (base +:+ "-" +:+ quote +:+ ".parquet")) st)).
Proof.
  unfold finish_run.
  destruct (len (batches loc) >? 1) eqn:E.
  - right. eexists. split; reflexivity.
  - destruct (df loc) as [d|] eqn:Hd.
    + right. exists d. split; reflexivity.
    + left. split; [reflexivity|]. split; [|reflexivity].
      rewrite Z.gtb_ltb in E. apply Z.ltb_ge in E. exact E.
Qed.

(** Without the parquet flag, a run that gathered nothing returns 0 and
    leaves the state as it is. *)
Lemma finish_run_idle (filepath base quote : string) (old_lines : Z)
    (b : DataFrame) (d : option DataFrame) (st : State) :
  finish_run filepath base quote false old_lines (mkLocals [b] d) st
  = (Ok 0, st).
Proof. reflexivity. Qed.

Lemma finish_run_not_OutOfFuel (filepath base quote : string) (wp : bool)
    (old_lines : Z) (loc : Locals) (st : State) :
  fst (finish_run filepath base quote wp old_lines loc st) <> OutOfFuel.
Proof.
  unfold finish_run.
  destruct wp, (len (batches loc) >? 1), (df loc); simpl; discriminate.
Qed.

Lemma trade_resume_batches (filepath : string) (st : State)
    (batches0 : list DataFrame) (last_id : Z) (st1 : State) :
  trade_resume filepath st = (Ok (batches0, last_id), st1) ->
  batches0 = [[]].
Proof.
  unfold trade_resume. intros H.
  destruct (params st !! "fromId") as [[from_id| |]|]; try discriminate.
  destruct (from_id =? 0); [|congruence].
  destruct (files st !! filepath) as [disk|]; [|congruence].
  destruct (column_max disk); [congruence | discriminate].
Qed.

Lemma candle_resume_batches (filepath : string) (st : State)
    (batches0 : list DataFrame) (last_timestamp : Z) (st1 : State) :
  candle_resume filepath st = (Ok (batches0, last_timestamp), st1) ->
  length batches0 = 1%nat.
Proof.
  unfold candle_resume. intros H.
  destruct (files st !! filepath) as [disk|].
  - destruct (column_max disk); simplify_eq. reflexivity.
  - destruct (param_int "startTime" st); simplify_eq. reflexivity.
Qed.

(** ** Request signing *)

(** Closes [Forall P t] when [t] is a literal list without data requests and
    [P] only constrains data requests. *)
Ltac no_requests :=
  repeat (apply Forall_cons_2; [intros ? ?; discriminate|]);
  apply Forall_nil_2.

Lemma try_block_signed (w : World) (api_key api_secret : string)
    (api_path : string) (timeout : Value) (st : State) (r : TryResult)
    (st' : State) :
  API_KEY w = Some api_key -> API_SECRET w = Some api_secret ->
  try_block w api_path timeout st = (r, st') ->
  exists t, trace st' = trace st ++ t /\
    Forall (signed api_secret) t /\
    (forall status json, r = Response status json ->
       params st' !! "signiature" = Some (VHash api_secret) /\
       exists ts, params st' !! "timestamp" = Some (VInt ts)).
Proof.
  unfold try_block, requests_get. intros -> -> H.
  assert (Hnone : Forall (signed api_secret) [EvTimeRequest]).
  { apply Forall_cons_2; [|constructor]. intros q Hq. discriminate. }
  destruct (time_net w (calls st)) as [e|[ts|]].
  - simplify_eq; simpl. eexists; split; [reflexivity|].
    split; [exact Hnone | discriminate].
  - assert (Hs : (<["timestamp" := VInt ts]>
                    (<["signiature" := VHash api_secret]> (params st)))
                 !! "signiature" = Some (VHash api_secret)).
    { rewrite lookup_insert_ne by discriminate. apply lookup_insert_eq. }
    assert (Ht : (<["timestamp" := VInt ts]>
                    (<["signiature" := VHash api_secret]> (params st)))
                 !! "timestamp" = Some (VInt ts))
      by apply lookup_insert_eq.
    match type of H with
    | context [net w ?c ?a ?p] => destruct (net w c a p)
    end; simplify_eq; simpl;
    (eexists; split; [rewrite <- app_assoc; reflexivity|]);
    (split; [apply Forall_app; split; [exact Hnone|];
             apply Forall_cons_2; [|constructor];
             intros q Hq; simpl in Hq; simplify_eq; eauto|]);
    intros; eauto.
  - simplify_eq; simpl. eexists; split; [reflexivity|].
    split; [exact Hnone | discriminate].
Qed.

Lemma get_batch_signed (w : World) (api_key api_secret : string)
    (fuel : nat) (api_path : string) (timeout : Value) :
  API_KEY w = Some api_key -> API_SECRET w = Some api_secret ->
  forall (st : State) (out : Outcome DataFrame) (st' : State),
  get_batch w fuel api_path timeout st = (out, st') ->
  exists t, trace st' = trace st ++ t /\
    Forall (signed api_secret) t /\
    (forall page, out = Ok page ->
       params st' !! "signiature" = Some (VHash api_secret) /\
       exists ts, params st' !! "timestamp" = Some (VInt ts)).
Proof.
  intros Hk Hs. induction fuel as [|fuel IH]; intros st out st' H;
    simpl in H.
  - simplify_eq. exists []. rewrite app_nil_r.
    split; [reflexivity|]. split; [constructor | discriminate].
  - destruct (try_block w api_path timeout st) as [r st1] eqn:Htry.
    destruct (try_block_signed _ _ _ _ _ _ _ _ Hk Hs Htry)
      as (t1 & Ht1 & Hs1 & Hr1).
    destruct r as [e|e|status json].
    + apply IH in H as (t2 & Ht2 & Hs2 & Hok). simpl in Ht2.
      exists (t1 ++ [EvPrint (cooldown_message e); EvSleep (5 * 60)] ++ t2).
      split; [rewrite Ht2, Ht1, <- !app_assoc; reflexivity|].
      split; [|exact Hok].
      repeat (apply Forall_app; split); auto.
      all: no_requests.
    + simplify_eq. exists t1. split; [assumption|].
      split; [assumption | discriminate].
    + destruct (Hr1 status json eq_refl) as [Hsig Hts].
      destruct (status =? 200); simplify_eq.
      * exists t1. auto.
      * exists (t1 ++ [EvPrint "Got erroneous response back"]).
        split; [simpl; rewrite Ht1, <- app_assoc; reflexivity|].
        split; [|auto].
        apply Forall_app; split; auto.
        no_requests.
Qed.

(** Entries of the dict are never removed by [get_batch], whatever the
    credentials: each request it sends carries them. *)
Lemma get_batch_carries (w : World) (k : string) (fuel : nat)
    (api_path : string) (timeout : Value) :
  forall (st : State),
  is_Some (params st !! k) ->
  is_Some (params (snd (get_batch w fuel api_path timeout st)) !! k) /\
  Forall (carries k)
    (new_events st (snd (get_batch w fuel api_path timeout st))).
Proof.
  induction fuel as [|fuel IH]; intros st Hin; simpl.
  - rewrite new_events_refl. split; [assumption | constructor].
  - destruct (try_block w api_path timeout st) as [r st1] eqn:Htry.
    assert (Hin1 : is_Some (params st1 !! k)).
    { revert Htry. unfold try_block, requests_get.
      destruct (API_KEY w), (API_SECRET w);
        try (destruct (net w _ _ _); intros; simplify_eq; exact Hin).
      destruct (time_net w (calls st)) as [?|[?|]];
        try (intros; simplify_eq; exact Hin).
      destruct (net w _ _ _); intros; simplify_eq; simpl;
        rewrite !lookup_insert_is_Some'; auto. }
    apply try_block_spec in Htry as (_ & _ & _ & t1 & Ht1 & _ & Hr1 & _).
    assert (Hc1 : Forall (carries k) t1).
    { eapply Forall_impl; [exact Hr1|]. intros e He p Hp.
      rewrite (He p Hp). exact Hin1. }
    destruct r as [e|e|status json].
    + match goal with |- context [get_batch w fuel api_path timeout ?s] =>
        set (st3 := s) end.
      destruct (IH st3 Hin1) as [Hin3 Hc3]. split; [exact Hin3|].
      destruct (get_batch_spec w fuel api_path timeout st3 _ _
                  (surjective_pairing _)) as (_ & _ & _ & t & Ht & _).
      rewrite (new_events_app _ _ _ Ht) in Hc3.
      erewrite new_events_app.
      2:{ rewrite Ht. subst st3. simpl. rewrite Ht1, <- !app_assoc.
          reflexivity. }
      repeat (apply Forall_app; split); auto.
      all: no_requests.
    + simpl. split; [assumption|].
      rewrite (new_events_app _ _ _ Ht1). exact Hc1.
    + destruct (status =? 200); simpl; (split; [assumption|]).
      * rewrite (new_events_app _ _ _ Ht1). exact Hc1.
      * erewrite new_events_app.
        2:{ simpl. rewrite Ht1, <- app_assoc. reflexivity. }
        apply Forall_app; split; auto.
        no_requests.
Qed.

(** ** Where a run resumes *)

Lemma trade_resume_spec (filepath : string) (st : State)
    (out : Outcome (list DataFrame * Z)) (st1 : State) :
  trade_resume filepath st = (out, st1) ->
  trace st1 = trace st /\ calls st1 = calls st /\ files st1 = files st /\
  out <> OutOfFuel /\
  forall batches0 last_id, out = Ok (batches0, last_id) ->
    batches0 = [[]] /\
    (forall disk K,
       params st !! "fromId" = Some (VInt 0) ->
       files st !! filepath = Some disk -> column_max disk = Some K ->
       last_id = K /\ params st1 !! "fromId" = Some (VInt (K + 1))) /\
    (params st !! "fromId" = Some (VInt 0) ->
     files st !! filepath = None ->
     last_id = 0 /\ params st1 !! "fromId" = Some (VInt 0)) /\
    (forall s, params st !! "fromId" = Some (VInt s) -> s <> 0 ->
       last_id = s /\ params st1 !! "fromId" = Some (VInt (s + 1))) /\
    exists c, params st1 !! "fromId" = Some (VInt c) /\ c <= last_id + 1.
Proof.
  unfold trade_resume. intros H.
  destruct (params st !! "fromId") as [[from_id| |]|] eqn:Hp;
    try (simplify_eq; split_and!; auto; discriminate).
  destruct (from_id =? 0) eqn:E.
  - apply Z.eqb_eq in E. subst from_id.
    destruct (files st !! filepath) as [disk|] eqn:Hf.
    + destruct (column_max disk) as [K|] eqn:Hm;
        [|simplify_eq; split_and!; auto; discriminate].
      simplify_eq; simpl. split_and!; auto; try discriminate.
      intros ? ? [= <- <-]. split_and!; auto.
      * intros disk' K' _ [= <-] Hm'. rewrite Hm in Hm'. simplify_eq.
        split; [reflexivity | apply lookup_insert_eq].
      * discriminate.
      * intros s [= <-] Hs. contradiction.
      * exists (K + 1). split; [apply lookup_insert_eq | lia].
    + simplify_eq. split_and!; auto; try discriminate.
      intros ? ? [= <- <-]. split_and!; auto.
      * discriminate.
      * intros s [= <-] Hs. contradiction.
      * exists 0. split; [assumption | lia].
  - apply Z.eqb_neq in E.
    simplify_eq; simpl. split_and!; auto; try discriminate.
    intros ? ? [= <- <-]. split_and!; auto.
    + intros disk K [= ->]. contradiction.
    + intros [= ->]. contradiction.
    + intros s [= <-] _. split; [reflexivity | apply lookup_insert_eq].
    + exists (from_id + 1). split; [apply lookup_insert_eq | lia].
Qed.

Lemma candle_resume_spec (filepath : string) (st : State)
    (out : Outcome (list DataFrame * Z)) (st1 : State) :
  candle_resume filepath st = (out, st1) ->
  st1 = st /\ out <> OutOfFuel /\
  forall batches0 last_timestamp, out = Ok (batches0, last_timestamp) ->
    (forall disk K,
       files st !! filepath = Some disk -> column_max disk = Some K ->
       last_timestamp = K /\ batches0 = [disk]) /\
    (forall s, files st !! filepath = None ->
       params st !! "startTime" = Some (VInt s) ->
       last_timestamp = s /\ batches0 = [[]]).
Proof.
  unfold candle_resume. intros H.
  destruct (files st !! filepath) as [disk|] eqn:Hf.
  - destruct (column_max disk) as [K|] eqn:Hm; simplify_eq;
      split_and!; auto; try discriminate.
    intros ? ? [= <- <-]. split.
    + intros disk' K' [= <-] Hm'. rewrite Hm in Hm'. simplify_eq. auto.
    + discriminate.
  - unfold param_int in H.
    destruct (params st !! "startTime") as [[s| |]|] eqn:Hp; simplify_eq;
      split_and!; auto; try discriminate.
    intros ? ? [= <- <-]. split; [discriminate|].
    intros s' _ [= <-]. auto.
Qed.

Lemma finish_run_trace (filepath base quote : string) (wp : bool)
    (old_lines : Z) (loc : Locals) (st : State) :
  exists t,
    trace (snd (finish_run filepath base quote wp old_lines loc st))
    = trace st ++ t /\ first_request t = None.
Proof.
  unfold finish_run.
  destruct wp, (len (batches loc) >? 1), (df loc); simpl;
    solve [ exists []; split; [symmetry; apply app_nil_r | reflexivity]
          | eexists; split; [reflexivity | reflexivity] ].
Qed.

Lemma first_request_keeps (p0 p : Params) (t : list Event) (k : string) :
  Forall (request_keeps p0) t -> first_request t = Some p ->
  k <> "signiature" -> k <> "timestamp" -> p !! k = p0 !! k.
Proof.
  induction 1 as [|e t He Ht IH]; simpl; [discriminate|].
  destruct (is_request e) as [q|] eqn:Hq.
  - intros [= <-]. apply He. exact Hq.
  - exact IH.
Qed.

(** The first request of the trade loop is sent with the [fromId] the dict
    holds when the loop is entered. *)
Lemma trade_loop_first_request (w : World) (fuel : nat) (filepath : string)
    (previous_id last_id : Z) (loc : Locals) (st : State) :
  exists t,
    trace (snd (trade_loop w fuel filepath previous_id last_id loc st))
    = trace st ++ t /\
    forall p, first_request t = Some p ->
              p !! "fromId" = params st !! "fromId".
Proof.
  destruct fuel as [|fuel]; simpl.
  { exists []. split; [symmetry; apply app_nil_r | discriminate]. }
  destruct (previous_id =? last_id);
    [exists []; split; [symmetry; apply app_nil_r | discriminate]|].
  destruct ((previous_id >=? last_id) && (previous_id >? 0));
    [exists []; split; [symmetry; apply app_nil_r | discriminate]|].
  destruct (get_batch w fuel "aggTrades" (timeout (args w)) st)
    as [out st1] eqn:Hg.
  apply get_batch_spec in Hg as (_ & _ & _ & t1 & Ht1 & _ & Hk1 & Hok).
  assert (Hfirst : forall p, first_request t1 = Some p ->
                             p !! "fromId" = params st !! "fromId").
  { intros p Hp. eapply first_request_keeps; eauto; discriminate. }
  destruct out as [new_batch|e|]; simpl; eauto.
  destruct (Hok new_batch eq_refl) as [Hne _].
  assert (Hany : forall t', exists t,
            trace st ++ t1 ++ t' = trace st ++ t /\
            forall p, first_request t = Some p ->
                      p !! "fromId" = params st !! "fromId").
  { intros t'. exists (t1 ++ t'). split; [reflexivity|].
    intros p. rewrite first_request_app.
    destruct (first_request t1) as [q|] eqn:Hq; [|contradiction].
    intros [= <-]. apply Hfirst. reflexivity. }
  destruct (trade_page filepath new_batch loc st1) as [o st2] eqn:Hp.
  apply trade_page_spec in Hp as (_ & (t2 & Ht2 & _) & _).
  destruct o as [[|l loc']|e|]; simpl;
    try (rewrite Ht2, Ht1, <- app_assoc; apply Hany).
  destruct (trade_loop_trace w fuel filepath last_id l loc' st2) as [t3 Ht3].
  rewrite Ht3, Ht2, Ht1, <- !app_assoc. apply (Hany (t2 ++ t3)).
Qed.

(** The first request of the candle loop asks for [last_timestamp + 1]. *)
Lemma candle_loop_first_request (w : World) (fuel : nat) (filepath : string)
    (previous_timestamp : option Z) (last_timestamp : Z) (loc : Locals)
    (st : State) :
  exists t,
    trace (snd (candle_loop w fuel filepath previous_timestamp last_timestamp
                            loc st))
    = trace st ++ t /\
    forall p, first_request t = Some p ->
              p !! "startTime" = Some (VInt (last_timestamp + 1)).
Proof.
  destruct fuel as [|fuel]; simpl.
  { exists []. split; [symmetry; apply app_nil_r | discriminate]. }
  destruct (bool_decide (previous_timestamp = Some last_timestamp));
    [exists []; split; [symmetry; apply app_nil_r | discriminate]|].
  destruct (date_fromtimestamp w last_timestamp) as [day|e|];
    try (exists []; split; [symmetry; apply app_nil_r | discriminate]).
  destruct (day >=? today w);
    [exists []; split; [symmetry; apply app_nil_r | discriminate]|].
  destruct (get_batch w fuel "klines" (VInt 30) _) as [out st1] eqn:Hg.
  apply get_batch_spec in Hg as (_ & _ & _ & t1 & Ht1 & _ & Hk1 & Hok).
  simpl in Ht1, Hk1.
  assert (Hfirst : forall p, first_request t1 = Some p ->
            p !! "startTime" = Some (VInt (last_timestamp + 1))).
  { intros p Hp.
    erewrite first_request_keeps; eauto; try discriminate.
    apply lookup_insert_eq. }
  destruct out as [new_batch|e|]; simpl; eauto.
  destruct (Hok new_batch eq_refl) as [Hne _].
  assert (Hany : forall t', exists t,
            trace st ++ t1 ++ t' = trace st ++ t /\
            forall p, first_request t = Some p ->
                      p !! "startTime" = Some (VInt (last_timestamp + 1))).
  { intros t'. exists (t1 ++ t'). split; [reflexivity|].
    intros p. rewrite first_request_app.
    destruct (first_request t1) as [q|] eqn:Hq; [|contradiction].
    intros [= <-]. apply Hfirst. reflexivity. }
  destruct (candle_page filepath last_timestamp new_batch loc st1)
    as [o st2] eqn:Hp.
  apply candle_page_spec in Hp as (_ & _ & (t2 & Ht2 & _) & _).
  destruct o as [[|l loc']|e|]; simpl;
    try (rewrite Ht2, Ht1, <- app_assoc; apply Hany).
  destruct (candle_loop_trace w fuel filepath (Some last_timestamp) l loc' st2)
    as [t3 Ht3].
  rewrite Ht3, Ht2, Ht1, <- !app_assoc. apply (Hany (t2 ++ t3)).
Qed.

(** ** Termination against a data source that settles *)

Section Settling.

Variables (w : World) (N : nat) (api_path : string) (timeout_ : Value).
Variable Q : Params -> DataFrame -> Prop.

Hypothesis time_settles :
  forall i, (N <= i)%nat -> exists body, time_net w i = TimeBody body.
Hypothesis net_settles :
  forall i p, (N <= i)%nat ->
  exists status_code json,
    net w i api_path p = NetResponse status_code json /\
    (status_code = 200 -> Q p json).

Lemma try_block_settled (st : State) (r : TryResult) (st' : State) :
  (N <= calls st)%nat ->
  try_block w api_path timeout_ st = (r, st') ->
  (forall e, r <> Caught e) /\
  (forall json, r = Response 200 json ->
     exists p, Q p json /\
       forall k, k <> "signiature" -> k <> "timestamp" ->
                 p !! k = params st !! k).
Proof.
  intros HN. unfold try_block, requests_get.
  assert (Hplain :
    (match net w (calls st) api_path (params st) with
     | NetRaise e => (Caught e, tick (log (EvRequest api_path (params st)
                                             timeout_ None) st))
     | NetResponse status_code json =>
         (Response status_code json,
          tick (log (EvRequest api_path (params st) timeout_ None) st))
     end) = (r, st') ->
    (forall e, r <> Caught e) /\
    (forall json, r = Response 200 json ->
       exists p, Q p json /\
         forall k, k <> "signiature" -> k <> "timestamp" ->
                   p !! k = params st !! k)).
  { destruct (net_settles (calls st) (params st) HN) as (s & j & -> & Hq).
    intros [= <- <-]. split; [discriminate|].
    intros json [= -> ->]. exists (params st). split; [auto | reflexivity]. }
  destruct (API_KEY w) as [k|]; [|exact Hplain].
  destruct (API_SECRET w) as [sec|]; [|exact Hplain].
  destruct (time_settles (calls st) HN) as [[ts|] ->].
  - simpl.
    match goal with
    | |- context [net w ?c ?a ?p] =>
        destruct (net_settles c p ltac:(lia)) as (s & j & -> & Hq);
        intros [= <- <-]; split; [discriminate|];
        intros json [= -> ->]; exists p; split; [auto|]
    end.
    intros k' H1 H2. rewrite !lookup_insert_ne by congruence. reflexivity.
  - intros [= <- <-]. split; discriminate.
Qed.

Lemma get_batch_settles :
  forall (k fuel : nat) (st : State),
  (N - calls st <= k)%nat -> (k < fuel)%nat ->
  fst (get_batch w fuel api_path timeout_ st) <> OutOfFuel /\
  ((N <= calls st)%nat ->
   forall json, fst (get_batch w fuel api_path timeout_ st) = Ok json ->
     json = [] \/
     exists p, Q p json /\
       forall k', k' <> "signiature" -> k' <> "timestamp" ->
                  p !! k' = params st !! k').
Proof.
  assert (Hdirect : forall fuel st, (N <= calls st)%nat ->
    fst (get_batch w (S fuel) api_path timeout_ st) <> OutOfFuel /\
    (forall json, fst (get_batch w (S fuel) api_path timeout_ st) = Ok json ->
       json = [] \/
       exists p, Q p json /\
         forall k', k' <> "signiature" -> k' <> "timestamp" ->
                    p !! k' = params st !! k')).
  { intros fuel st HN. simpl.
    destruct (try_block w api_path timeout_ st) as [r st1] eqn:Htry.
    destruct (try_block_settled _ _ _ HN Htry) as [Hnc Hresp].
    destruct r as [e|e|status json]; [exfalso; eapply Hnc; reflexivity| |].
    - simpl. split; discriminate.
    - destruct (status =? 200) eqn:E; simpl.
      + apply Z.eqb_eq in E. subst status. split; [discriminate|].
        intros json' [= <-]. right. apply Hresp. reflexivity.
      + split; [discriminate|]. intros json' [= <-]. left. reflexivity. }
  induction k as [|k IH]; intros fuel st Hk Hfuel;
    (destruct fuel as [|fuel]; [lia|]).
  - destruct (Hdirect fuel st ltac:(lia)) as [H1 H2]. split; auto.
  - destruct (le_lt_dec N (calls st)) as [HN|HN].
    { destruct (Hdirect fuel st HN) as [H1 H2]. split; auto. }
    split; [|intros; lia].
    simpl.
    destruct (try_block w api_path timeout_ st) as [r st1] eqn:Htry.
    apply try_block_spec in Htry as (_ & Hc & _).
    destruct r as [e|e|status json].
    + apply IH; simpl; lia.
    + simpl. discriminate.
    + destruct (status =? 200); simpl; discriminate.
Qed.

End Settling.

Section TradeSettles.

Variables (w : World) (N : nat).
Hypothesis time_settles :
  forall i, (N <= i)%nat -> exists body, time_net w i = TimeBody body.
Hypothesis trades_settle :
  forall i p, (N <= i)%nat -> trade_quiet p (net w i "aggTrades" p).

(** What the [k]-th fetch brings once the source has settled. *)
Lemma trade_fetch_settles (k fuel : nat) (st : State) :
  (N - calls st <= k)%nat -> (k < fuel)%nat ->
  fst (get_batch w fuel "aggTrades" (timeout (args w)) st) <> OutOfFuel /\
  ((N <= calls st)%nat ->
   forall json m,
     fst (get_batch w fuel "aggTrades" (timeout (args w)) st) = Ok json ->
     column_max json = Some m ->
     0 <= m /\ exists c, params st !! "fromId" = Some (VInt c) /\ m < c).
Proof.
  intros Hk Hfuel.
  set (Q := fun (p : Params) (json : DataFrame) =>
              forall m, column_max json = Some m ->
              0 <= m /\ exists c, p !! "fromId" = Some (VInt c) /\ m < c).
  assert (Hnet : forall i p, (N <= i)%nat ->
            exists status_code json,
              net w i "aggTrades" p = NetResponse status_code json /\
              (status_code = 200 -> Q p json)).
  { intros i p Hi. destruct (trades_settle i p Hi) as (s & j & -> & Hq).
    eauto. }
  destruct (get_batch_settles w N "aggTrades" (timeout (args w)) Q
              time_settles Hnet k fuel st Hk Hfuel) as [H1 H2].
  split; [exact H1|].
  intros HN json m Hget Hm.
  destruct (H2 HN json Hget) as [-> | (p & Hq & Hp)]; [discriminate|].
  destruct (Hq m Hm) as (H0 & c & Hc & Hlt).
  split; [exact H0|]. exists c. split; [|exact Hlt].
  rewrite <- Hp by discriminate. exact Hc.
Qed.

Lemma trade_loop_settles (filepath : string) :
  forall (fuel : nat) (previous_id last_id : Z) (loc : Locals) (st : State),
  (N - calls st + 1 < fuel)%nat ->
  (exists c, params st !! "fromId" = Some (VInt c) /\ c <= last_id + 1) ->
  fst (trade_loop w fuel filepath previous_id last_id loc st) <> OutOfFuel.
Proof.
  induction fuel as [|fuel IH]; intros previous_id last_id loc st Hfuel Hinv;
    [lia|]; simpl.
  destruct (previous_id =? last_id); [simpl; discriminate|].
  destruct ((previous_id >=? last_id) && (previous_id >? 0));
    [simpl; discriminate|].
  destruct (trade_fetch_settles (N - calls st) fuel st ltac:(lia) ltac:(lia))
    as [Hne Hstale].
  destruct (get_batch w fuel "aggTrades" (timeout (args w)) st)
    as [out st1] eqn:Hg.
  pose proof (get_batch_spec _ _ _ _ _ _ _ Hg)
    as (_ & _ & _ & t & _ & _ & _ & Hok).
  destruct out as [new_batch|e|]; simpl in *; [|discriminate|congruence].
  destruct (Hok new_batch eq_refl) as [_ Hcalls].
  destruct (trade_page filepath new_batch loc st1) as [o st2] eqn:Hp.
  apply trade_page_spec in Hp as (Hc2 & _ & Hno & _ & Hcont).
  destruct o as [[|l loc']|e|]; simpl; try discriminate; [|congruence].
  destruct (Hcont l loc' eq_refl) as [Hmax Hparams].
  destruct (le_lt_dec N (calls st)) as [HN|HN].
  - (* the source had settled before this fetch: the page is stale and the
       loop stops at its next test *)
    destruct (Hstale HN new_batch l eq_refl Hmax) as (H0 & c & Hc & Hlt).
    destruct Hinv as (c' & Hc' & Hle).
    rewrite Hc in Hc'. injection Hc' as <-.
    destruct fuel as [|fuel']; [lia|]. simpl.
    destruct (last_id =? l) eqn:E1; [simpl; discriminate|].
    apply Z.eqb_neq in E1.
    assert (E2 : (last_id >=? l) && (last_id >? 0) = true).
    { apply andb_true_intro. rewrite Z.geb_leb, Z.gtb_ltb.
      split; [apply Z.leb_le | apply Z.ltb_lt]; lia. }
    rewrite E2. simpl. discriminate.
  - apply IH; [lia|].
    exists (l + 1). split; [rewrite Hparams; apply lookup_insert_eq | lia].
Qed.

End TradeSettles.

Section CandleSettles.

Variables (w : World) (N : nat).
Hypothesis time_settles :
  forall i, (N <= i)%nat -> exists body, time_net w i = TimeBody body.
Hypothesis candles_settle :
  forall i p, (N <= i)%nat -> candle_quiet p (net w i "klines" p).

Lemma candle_fetch_settles (k fuel : nat) (st : State) :
  (N - calls st <= k)%nat -> (k < fuel)%nat ->
  fst (get_batch w fuel "klines" (VInt 30) st) <> OutOfFuel /\
  ((N <= calls st)%nat ->
   forall json m,
     fst (get_batch w fuel "klines" (VInt 30) st) = Ok json ->
     column_max json = Some m ->
     params st !! "startTime" = Some (VInt (m + 1))).
Proof.
  intros Hk Hfuel.
  set (Q := fun (p : Params) (json : DataFrame) =>
              forall m, column_max json = Some m ->
              p !! "startTime" = Some (VInt (m + 1))).
  assert (Hnet : forall i p, (N <= i)%nat ->
            exists status_code json,
              net w i "klines" p = NetResponse status_code json /\
              (status_code = 200 -> Q p json)).
  { intros i p Hi. destruct (candles_settle i p Hi) as (s & j & -> & Hq).
    eauto. }
  destruct (get_batch_settles w N "klines" (VInt 30) Q
              time_settles Hnet k fuel st Hk Hfuel) as [H1 H2].
  split; [exact H1|].
  intros HN json m Hget Hm.
  destruct (H2 HN json Hget) as [-> | (p & Hq & Hp)]; [discriminate|].
  rewrite <- Hp by discriminate. apply Hq. exact Hm.
Qed.

Lemma candle_loop_settles (filepath : string) :
  forall (fuel : nat) (previous_timestamp : option Z) (last_timestamp : Z)
         (loc : Locals) (st : State),
  (N - calls st + 1 < fuel)%nat ->
  fst (candle_loop w fuel filepath previous_timestamp last_timestamp loc st)
  <> OutOfFuel.
Proof.
  induction fuel as [|fuel IH];
    intros previous_timestamp last_timestamp loc st Hfuel; [lia|]; simpl.
  destruct (bool_decide (previous_timestamp = Some last_timestamp));
    [simpl; discriminate|].
  pose proof (date_fromtimestamp_not_OutOfFuel w last_timestamp) as Hday.
  destruct (date_fromtimestamp w last_timestamp) as [day|e|];
    [|simpl; discriminate|congruence].
  destruct (day >=? today w); [simpl; discriminate|].
  set (st0 := set_param "startTime" (VInt (last_timestamp + 1)) st).
  destruct (candle_fetch_settles (N - calls st) fuel st0
              ltac:(simpl; lia) ltac:(lia)) as [Hne Hstale].
  destruct (get_batch w fuel "klines" (VInt 30) st0) as [out st1] eqn:Hg.
  pose proof (get_batch_spec _ _ _ _ _ _ _ Hg)
    as (_ & _ & _ & t & _ & _ & _ & Hok).
  destruct out as [new_batch|e|]; simpl in *; [|discriminate|congruence].
  destruct (Hok new_batch eq_refl) as [_ Hcalls].
  destruct (candle_page filepath last_timestamp new_batch loc st1)
    as [o st2] eqn:Hp.
  apply candle_page_spec in Hp as (Hc2 & _ & _ & Hno & _ & Hcont).
  destruct o as [[|l loc']|e|]; simpl; try discriminate; [|congruence].
  destruct (Hcont l loc' eq_refl) as [Hmax Hprog].
  destruct (le_lt_dec N (calls st)) as [HN|HN].
  - (* the source had settled before this fetch: the page cannot have been
       taken for progress *)
    exfalso. pose proof (Hstale HN new_batch l eq_refl Hmax) as Hs.
    rewrite lookup_insert_eq in Hs. injection Hs as Hs. lia.
  - apply IH. lia.
Qed.

End CandleSettles.

(** ** Error handling of the batch fetcher *)

(** C6: a response whose status is not 200 makes [get_batch] return an
    empty page after that single attempt (one data request, preceded by the
    [time] request when the call is signed; no sleep, no retry), and in both
    drivers the empty page ends the loop normally: the loop hands back its
    locals, it raises nothing. *)
Theorem non200_ends_stream (w : World) (fuel : nat) (api_path : string)
    (timeout_ : Value) (st st1 : State) (status_code : Z) (json : DataFrame) :
  try_block w api_path timeout_ st = (Response status_code json, st1) ->
  status_code <> 200 ->
  let st2 := log (EvPrint "Got erroneous response back") st1 in
  get_batch w (S fuel) api_path timeout_ st = (Ok [], st2) /\
  (map kind (new_events st st2) = [KRequest; KPrint] \/
   map kind (new_events st st2) = [KTime; KRequest; KPrint]) /\
  (forall filepath previous_id last_id loc,
     api_path = "aggTrades" -> timeout_ = timeout (args w) ->
     previous_id <> last_id ->
     ~ (previous_id >= last_id /\ previous_id > 0) ->
     trade_loop w (S (S fuel)) filepath previous_id last_id loc st
     = (Ok loc, st2)) /\
  (forall filepath previous_timestamp last_timestamp loc st0,
     api_path = "klines" -> timeout_ = VInt 30 ->
     st = set_param "startTime" (VInt (last_timestamp + 1)) st0 ->
     previous_timestamp <> Some last_timestamp ->
     (exists day, date_fromtimestamp w last_timestamp = Ok day /\
                  day < today w) ->
     candle_loop w (S (S fuel)) filepath previous_timestamp last_timestamp
                 loc st0
     = (Ok loc, st2)).
Proof.
  intros Htry Hstatus st2.
  assert (Hget : get_batch w (S fuel) api_path timeout_ st = (Ok [], st2)).
  { simpl. rewrite Htry.
    destruct (status_code =? 200) eqn:E; [|reflexivity].
    apply Z.eqb_eq in E. contradiction. }
  split; [exact Hget|]. split.
  - destruct (try_block_kinds _ _ _ _ _ _ Htry) as (t & Ht & Hk).
    erewrite new_events_app.
    2:{ subst st2. simpl. rewrite Ht, <- app_assoc. reflexivity. }
    rewrite map_app. simpl.
    destruct Hk as [[_ Hk]|[Hk|Hk]].
    + exfalso. eapply Hk. reflexivity.
    + left. rewrite Hk. reflexivity.
    + right. rewrite Hk. reflexivity.
  - split.
    + intros filepath previous_id last_id loc -> -> Hne Hbrk.
      cbn [trade_loop].
      destruct (previous_id =? last_id) eqn:E1;
        [apply Z.eqb_eq in E1; contradiction|].
      destruct ((previous_id >=? last_id) && (previous_id >? 0)) eqn:E2.
      { exfalso. apply Hbrk. apply andb_prop in E2 as [Ha Hb].
        rewrite Z.geb_leb in Ha. rewrite Z.gtb_ltb in Hb.
        apply Z.leb_le in Ha. apply Z.ltb_lt in Hb. lia. }
      rewrite Hget. reflexivity.
    + intros filepath previous_timestamp last_timestamp loc st0 -> -> ->
             Hne (day & Hday & Hlt).
      cbn [candle_loop].
      rewrite bool_decide_eq_false_2 by exact Hne. rewrite Hday.
      destruct (day >=? today w) eqn:E.
      { rewrite Z.geb_leb in E. apply Z.leb_le in E. lia. }
      rewrite Hget. reflexivity.
Qed.

Lemma non200_ends_stream_witness :
  trade_loop rate_limited_world 2 "data/trade_BTC-USDT.csv" (-1) 0
             (mkLocals [[]] None)
             (mkState (trade_params 0) ∅ 0 [])
  = (Ok (mkLocals [[]] None),
     mkState (trade_params 0) ∅ 1
       [EvRequest "aggTrades" (trade_params 0) (VInt 30) None;
        EvPrint "Got erroneous response back"]).
Proof.
  refine (proj1 (proj2 (proj2
    (non200_ends_stream rate_limited_world 0 "aggTrades" (VInt 30)
       (mkState (trade_params 0) ∅ 0 [])
       (mkState (trade_params 0) ∅ 1
          [EvRequest "aggTrades" (trade_params 0) (VInt 30) None])
       429 [] _ _)))
    "data/trade_BTC-USDT.csv" (-1) 0 (mkLocals [[]] None) _ _ _ _).
  - reflexivity.
  - lia.
  - reflexivity.
  - reflexivity.
  - lia.
  - lia.
Defined.



(** ** Latent failures of the drivers and of the orchestrator *)



(** C9: when [--dtype] is neither ['candle'] nor ['trade'], no driver is
    called for the first instrument and the test [new_lines > 0] reads a
    local that was never bound: the loop of [main] raises
    [UnboundLocalError] there, having changed nothing. *)
Theorem unknown_dtype_raises (w : World) (fuel : nat) (base quote : string)
    (rest : list (list string)) (st : State) :
  dtype (args w) <> "candle" ->
  dtype (args w) <> "trade" ->
  main_loop w fuel ([base; quote] :: rest) None st
  = (Raise (UnboundLocalError "new_lines"), st).
Proof.
  intros Hc Ht. simpl.
  apply String.eqb_neq in Hc, Ht. rewrite Hc, Ht. reflexivity.
Qed.

Lemma unknown_dtype_raises_witness :
  main_loop typo_world 10 [["BTC"; "USDT"]; ["ETH"; "BTC"]] None fresh_state
  = (Raise (UnboundLocalError "new_lines"), fresh_state).
Proof.
  apply (unknown_dtype_raises typo_world 10 "BTC" "USDT" [["ETH"; "BTC"]]
           fresh_state); simpl; discriminate.
Defined.

(** ** Request signing *)

(** C10: with both credentials configured, a call of [get_batch] that
    returns a page leaves the caller's dict changed: it now maps
    ['signiature'] to the SHA-256 hash object of the secret and ['timestamp']
    to the server time, its other entries being as before; every data
    request of the call was sent with the two entries.  The entries stay:
    whatever fetch is made next from the same dict, even with the
    credentials gone, still finds them there and sends them along. *)
Theorem signing_mutates_params (w : World) (api_key api_secret : string)
    (fuel : nat) (api_path : string) (timeout_ : Value) (st : State)
    (page : DataFrame) (st' : State) :
  API_KEY w = Some api_key ->
  API_SECRET w = Some api_secret ->
  get_batch w fuel api_path timeout_ st = (Ok page, st') ->
  (params st' !! "signiature" = Some (VHash api_secret) /\
   exists ts, params st' !! "timestamp" = Some (VInt ts)) /\
  (forall k, k <> "signiature" -> k <> "timestamp" ->
     params st' !! k = params st !! k) /\
  Forall (signed api_secret) (new_events st st') /\
  (forall w2 fuel2 api_path2 timeout2,
     let st2 := snd (get_batch w2 fuel2 api_path2 timeout2 st') in
     is_Some (params st2 !! "signiature") /\
     is_Some (params st2 !! "timestamp") /\
     Forall (carries "signiature") (new_events st' st2) /\
     Forall (carries "timestamp") (new_events st' st2)).
Proof.
  intros Hk Hs Hget.
  destruct (get_batch_signed _ _ _ _ _ _ Hk Hs _ _ _ Hget)
    as (t & Ht & Hsigned & Hok).
  destruct (Hok page eq_refl) as [Hsig [ts Hts]].
  destruct (get_batch_spec _ _ _ _ _ _ _ Hget) as (_ & _ & Hkeep & _).
  split; [eauto|]. split; [exact Hkeep|].
  split; [rewrite (new_events_app _ _ _ Ht); exact Hsigned|].
  intros w2 fuel2 api_path2 timeout2 st2. subst st2.
  destruct (get_batch_carries w2 "signiature" fuel2 api_path2 timeout2 st')
    as [H1 H2]; [rewrite Hsig; eauto|].
  destruct (get_batch_carries w2 "timestamp" fuel2 api_path2 timeout2 st')
    as [H3 H4]; [rewrite Hts; eauto|].
  auto.
Qed.

Lemma signing_mutates_params_witness :
  params (snd (get_batch signed_world 1 "aggTrades" (VInt 30)
                 (mkState (trade_params 0) ∅ 0 [])))
  !! "signiature" = Some (VHash "secret").
Proof.
  refine (proj1 (proj1
    (signing_mutates_params signed_world "key" "secret" 1 "aggTrades"
       (VInt 30) (mkState (trade_params 0) ∅ 0 []) (page_from 0 3)
       (snd (get_batch signed_world 1 "aggTrades" (VInt 30)
               (mkState (trade_params 0) ∅ 0 [])))
       eq_refl eq_refl _))).
  vm_compute. reflexivity.
Defined.

(** ** Resuming *)




(** ** Flushing *)




(** C1, at a failing input: a first trade run with limit 1000 against a
    source of five full pages.  The run flushes after the fourth page and
    empties the accumulator; the fifth page is appended to it; the sixth
    request comes back empty and ends the loop.  The accumulator then holds
    one page, the test [len(batches) > 1] fails, and the run ends without a
    final flush: the fifth page reaches no flush and the History Store stops
    at trade 3999. *)
Theorem final_page_dropped :
  fst five_page_run = Ok 0 /\
  map kind (trace (snd five_page_run))
  = [KRequest; KRequest; KRequest; KRequest; KFlush 5; KRequest; KRequest] /\
  flushed (trace (snd five_page_run))
  = [[]; page_from 0 1000; page_from 1000 1000; page_from 2000 1000;
     page_from 3000 1000] /\
  (page_from 4000 1000 ∉ flushed (trace (snd five_page_run))) /\
  files (snd five_page_run) !! trade_filepath "BTC" "USDT"
  = Some (page_from 0 4000).
Proof.
  assert (H : flushed (trace (snd five_page_run))
              = [[]; page_from 0 1000; page_from 1000 1000;
                 page_from 2000 1000; page_from 3000 1000])
    by (vm_compute; reflexivity).
  split; [vm_compute; reflexivity|].
  split; [vm_compute; reflexivity|].
  split; [exact H|].
  split; [|vm_compute; reflexivity].
  rewrite H. intros Hin.
  repeat (apply elem_of_cons in Hin as [Hin|Hin]; [discriminate Hin|]).
  apply elem_of_nil in Hin. exact Hin.
Qed.

(** C5, at a failing input: a candle run with limit 1000 that resumes from
    a History Store of 5000 candles against a source that has 6000 more.
    The store and four pages are flushed in the loop, the last two pages at
    the end; the count returned is the 2000 rows of that last flush minus
    the 5000 rows found on disk. *)
Theorem new_row_count_negative :
  fst resumed_candle_run = Ok (-3000) /\
  map kind (trace (snd resumed_candle_run))
  = [KRequest; KRequest; KRequest; KRequest; KFlush 5; KRequest; KRequest;
     KRequest; KFlush 2] /\
  len (concat (flushed (trace (snd resumed_candle_run)))) = 5000 + 6000.
Proof.
  split; [vm_compute; reflexivity|].
  split; vm_compute; reflexivity.
Qed.

(** ** Termination *)




(** * Further properties of the pipeline *)

(** ** The batch fetcher as a whole *)

Lemma try_block_no_sleep (w : World) (api_path : string) (timeout : Value)
    (st : State) :
  exists t, trace (snd (try_block w api_path timeout st)) = trace st ++ t /\
            sleeps t = [].
Proof.
  unfold try_block, requests_get.
  destruct (API_KEY w) as [k|], (API_SECRET w) as [sec|];
    try (destruct (net w (calls st) api_path (params st)); simpl;
         eexists; split; reflexivity).
  destruct (time_net w (calls st)) as [e|[t|]];
    try (simpl; eexists; split; reflexivity).
  match goal with
  | |- context [net w ?c ?a ?p] => destruct (net w c a p)
  end; simpl; (eexists; split; [rewrite <- app_assoc; reflexivity|]);
  reflexivity.
Qed.

Lemma sleeps_app (t1 t2 : list Event) :
  sleeps (t1 ++ t2) = sleeps t1 ++ sleeps t2.
Proof. unfold sleeps. apply omap_app. Qed.

Lemma get_batch_sleeps (w : World) (fuel : nat) (api_path : string)
    (timeout : Value) :
  forall st : State,
  Forall (fun s => s = 300)
    (sleeps (new_events st (snd (get_batch w fuel api_path timeout st)))).
Proof.
  induction fuel as [|fuel IH]; intros st; simpl.
  - rewrite new_events_refl. constructor.
  - destruct (try_block_no_sleep w api_path timeout st) as (t1 & Ht1 & Hs1).
    destruct (try_block w api_path timeout st) as [r st1]. simpl in Ht1.
    destruct r as [e|e|status json].
    + match goal with |- context [get_batch w fuel api_path timeout ?s] =>
        set (st3 := s) end.
      destruct (get_batch_spec w fuel api_path timeout st3 _ _
                  (surjective_pairing _)) as (_ & _ & _ & t & Ht & _).
      specialize (IH st3). rewrite (new_events_app _ _ _ Ht) in IH.
      erewrite new_events_app.
      2:{ rewrite Ht. subst st3. simpl. rewrite Ht1, <- !app_assoc.
          reflexivity. }
      rewrite !sleeps_app, Hs1. simpl. constructor; [reflexivity | exact IH].
    + simpl. rewrite (new_events_app _ _ _ Ht1), Hs1. constructor.
    + destruct (status =? 200); simpl.
      * rewrite (new_events_app _ _ _ Ht1), Hs1. constructor.
      * erewrite new_events_app.
        2:{ simpl. rewrite Ht1, <- app_assoc. reflexivity. }
        rewrite sleeps_app, Hs1. constructor.
Qed.

Lemma get_batch_unsigned_params (w : World) (fuel : nat) (api_path : string)
    (timeout : Value) :
  API_KEY w = None \/ API_SECRET w = None ->
  forall st : State,
  params (snd (get_batch w fuel api_path timeout st)) = params st.
Proof.
  intros Hcred. induction fuel as [|fuel IH]; intros st; simpl;
    [reflexivity|].
  rewrite (try_block_unsigned _ _ _ _ Hcred).
  destruct (net w (calls st) api_path (params st)) as [e|status json].
  - rewrite IH. reflexivity.
  - destruct (status =? 200); reflexivity.
Qed.

(** X1: whatever the data source does and however long it is retried,
    [get_batch] leaves the file system alone, changes no entry of the
    parameter dict but ['signiature'] and ['timestamp'] (none at all when a
    credential is missing), writes nothing, and never sleeps for anything
    but 300 seconds. *)
Theorem get_batch_frame (w : World) (fuel : nat) (api_path : string)
    (timeout_ : Value) (st : State) :
  let st' := snd (get_batch w fuel api_path timeout_ st) in
  files st' = files st /\
  (forall k, k <> "signiature" -> k <> "timestamp" ->
     params st' !! k = params st !! k) /\
  (API_KEY w = None \/ API_SECRET w = None -> params st' = params st) /\
  Forall (fun e => is_write e = false) (new_events st st') /\
  Forall (fun s => s = 300) (sleeps (new_events st st')).
Proof.
  intros st'. subst st'.
  destruct (get_batch_spec w fuel api_path timeout_ st _ _
              (surjective_pairing _)) as (Hf & _ & Hp & t & Ht & Hw & _).
  split; [exact Hf|]. split; [exact Hp|].
  split; [intros Hcred; apply get_batch_unsigned_params; exact Hcred|].
  split; [rewrite (new_events_app _ _ _ Ht); exact Hw|].
  apply get_batch_sleeps.
Qed.

Lemma get_batch_frame_witness :
  params (snd (get_batch flaky_world 4 "aggTrades" (VInt 30)
                 (mkState (trade_params 0) ∅ 0 [])))
  = trade_params 0.
Proof.
  exact (proj1 (proj2 (proj2
    (get_batch_frame flaky_world 4 "aggTrades" (VInt 30)
       (mkState (trade_params 0) ∅ 0 [])))) (or_introl eq_refl)).
Defined.

(** ** What the drivers report *)

(** X2: the trade driver never reports a negative count.  Its count is
    measured against the empty frame it starts with, so a positive count is
    the number of rows of the table written last; rows flushed earlier in
    the loop are not in it. *)
Theorem trade_count_nonneg (w : World) (fuel : nat) (base quote : string)
    (with_parquet : bool) (st : State) (n : Z) :
  fst (all_trade_to_csv w fuel base quote with_parquet st) = Ok n ->
  0 <= n /\
  (0 < n ->
   exists bs d,
     last (trace (snd (all_trade_to_csv w fuel base quote with_parquet st)))
     = Some (EvAppendCsv (trade_filepath base quote) bs d) /\
     n = len d).
Proof.
  unfold all_trade_to_csv.
  destruct (trade_resume (trade_filepath base quote) st)
    as [[[batches0 last_id]|e|] st1] eqn:Hres; try discriminate.
  apply trade_resume_batches in Hres as ->.
  destruct (trade_loop w fuel _ _ _ _ st1) as [[loc|e|] st2];
    try discriminate.
  unfold finish_run.
  destruct with_parquet.
  - destruct (len (batches loc) >? 1); [discriminate|].
    destruct (df loc); discriminate.
  - destruct (len (batches loc) >? 1); simpl.
    + intros [= Hn].
      assert (Hd : n = len (prepare_df (batches loc)))
        by (rewrite <- Hn; unfold len; simpl; lia).
      split; [rewrite Hd; unfold len; lia|].
      intros _. do 2 eexists. split; [apply last_snoc | exact Hd].
    + intros [= <-]. split; [lia | lia].
Qed.

Lemma trade_count_nonneg_witness :
  0 <= 3 /\
  (0 < 3 ->
   exists bs d,
     last (trace (snd (all_trade_to_csv resumed_trade_world 5 "BTC" "USDT"
                         false resumed_trade_state)))
     = Some (EvAppendCsv (trade_filepath "BTC" "USDT") bs d) /\
     3 = len d).
Proof.
  apply (trade_count_nonneg resumed_trade_world 5 "BTC" "USDT" false
           resumed_trade_state 3).
  vm_compute. reflexivity.
Defined.

(** ** Runs that find nothing new *)

(** X3: when the last candle of the History Store is dated today or later,
    the candle driver sends no request at all: without the parquet flag it
    returns 0 and leaves everything as it was; with the flag it fails on the
    unbound [df], equally without a request or a write. *)
Theorem candle_store_of_today (w : World) (fuel : nat)
    (base quote interval_ : string) (st : State) (disk : DataFrame)
    (K day : Z) :
  files st !! candle_filepath base quote interval_ = Some disk ->
  column_max disk = Some K ->
  date_fromtimestamp w K = Ok day ->
  today w <= day ->
  all_candle_to_csv w (S fuel) base quote interval_ false st = (Ok 0, st) /\
  all_candle_to_csv w (S fuel) base quote interval_ true st
  = (Raise (UnboundLocalError "df"), st).
Proof.
  intros Hf Hm Hd Hle.
  unfold all_candle_to_csv, candle_resume. rewrite Hf, Hm.
  cbn [candle_loop]. rewrite bool_decide_eq_false_2 by discriminate.
  rewrite Hd.
  assert (E : (day >=? today w) = true)
    by (rewrite Z.geb_leb; apply Z.leb_le; exact Hle).
  rewrite E. split; reflexivity.
Qed.

Lemma candle_store_of_today_witness :
  all_candle_to_csv (world_of (script_net []) candle_args) 1 "BTC" "USDT" "1m"
                    false today_state
  = (Ok 0, today_state).
Proof.
  refine (proj1 (candle_store_of_today (world_of (script_net []) candle_args)
                   0 "BTC" "USDT" "1m" today_state today_store
                   1728000060000 20000 _ _ _ _)).
  - reflexivity.
  - reflexivity.
  - vm_compute. reflexivity.
  - simpl. lia.
Defined.

(** X4: a candle run over a History Store that is up to date.  Let the
    store end at open time [K], dated before today, and let the source
    answer the one request [startTime = K + 1] with a non-200 status, an
    empty page, or a page whose largest open time is [K] again (the candle
    that has not closed).  Then, without credentials and without the parquet
    flag, the run makes exactly that one request, writes nothing and
    returns 0. *)
Theorem candle_up_to_date (w : World) (fuel : nat)
    (base quote interval_ : string) (st : State) (disk : DataFrame)
    (K day status_code : Z) (json : DataFrame) :
  API_KEY w = None \/ API_SECRET w = None ->
  files st !! candle_filepath base quote interval_ = Some disk ->
  column_max disk = Some K ->
  date_fromtimestamp w K = Ok day ->
  day < today w ->
  net w (calls st) "klines" (<["startTime" := VInt (K + 1)]> (params st))
    = NetResponse status_code json ->
  status_code <> 200 \/ json = [] \/ column_max json = Some K ->
  exists st',
    all_candle_to_csv w (S (S fuel)) base quote interval_ false st
      = (Ok 0, st') /\
    files st' = files st /\
    calls st' = S (calls st) /\
    first_request (new_events st st')
      = Some (<["startTime" := VInt (K + 1)]> (params st)) /\
    (map kind (new_events st st') = [KRequest] \/
     map kind (new_events st st') = [KRequest; KPrint]).
Proof.
  intros Hcred Hf Hm Hd Hlt Hnet Hstale.
  unfold all_candle_to_csv, candle_resume. rewrite Hf, Hm.
  cbn [candle_loop get_batch]. rewrite bool_decide_eq_false_2 by discriminate.
  rewrite Hd.
  assert (E : (day >=? today w) = false)
    by (rewrite Z.geb_leb; apply Z.leb_gt; exact Hlt).
  rewrite E. rewrite (try_block_unsigned _ _ _ _ Hcred).
  cbn [set_param params calls]. rewrite Hnet.
  destruct (status_code =? 200) eqn:E200.
  - assert (Hbreak : forall s,
              candle_page (candle_filepath base quote interval_) K json
                          (mkLocals [disk] None) s = (Ok Break, s)).
    { intros s. apply Z.eqb_eq in E200.
      destruct Hstale as [Hs|[->|Hmax]]; [contradiction|reflexivity|].
      unfold candle_page. destruct json as [|r rs]; [reflexivity|].
      simpl in Hmax. injection Hmax as ->. rewrite Z.eqb_refl. reflexivity. }
    rewrite Hbreak. eexists. split; [reflexivity|].
    split; [reflexivity|]. split; [reflexivity|].
    erewrite new_events_app by (simpl; reflexivity).
    split; [reflexivity | left; reflexivity].
  - cbn [candle_page]. eexists. split; [reflexivity|].
    split; [reflexivity|]. split; [reflexivity|].
    erewrite new_events_app by (simpl; rewrite <- app_assoc; reflexivity).
    split; [reflexivity | right; reflexivity].
Qed.

Lemma candle_up_to_date_witness :
  fst unclosed_candle_run = Ok 0.
Proof.
  destruct (candle_up_to_date
              (world_of (script_net
                           [NetResponse 200 (candles_from 1500000120000 1)])
                        candle_args)
              8 "BTC" "USDT" "1m"
              (mkState (candle_params 0)
                 {[ candle_filepath "BTC" "USDT" "1m" := small_candle_store ]}
                 0 [])
              small_candle_store 1500000120000 17361 200
              (candles_from 1500000120000 1))
    as (st' & Hrun & _).
  - left. reflexivity.
  - reflexivity.
  - reflexivity.
  - vm_compute. reflexivity.
  - simpl. lia.
  - reflexivity.
  - right. right. reflexivity.
  - unfold unclosed_candle_run, stale_candle_run. rewrite Hrun. reflexivity.
Defined.



(** ** A page limit given on the command line *)

Lemma flush_if_huge_not_int (filepath : string) (last : Z)
    (batches1 : list DataFrame) (df0 : option DataFrame) (st : State)
    (v : Value) :
  params st !! "limit" = Some v -> (forall n, v <> VInt n) ->
  flush_if_huge filepath last batches1 df0 st = (Raise TypeError, st).
Proof.
  intros Hv Hn. unfold flush_if_huge, param_int. rewrite Hv.
  destruct v as [n| |]; [destruct (Hn n eq_refl) | reflexivity | reflexivity].
Qed.



(** ** The files a run touches *)

Lemma touches_only_refl (filepath : string) (snapshot : option string)
    (st : State) :
  touches_only filepath snapshot st st.
Proof.
  split; [|split].
  - exists []. split; [symmetry; apply app_nil_r | constructor].
  - reflexivity.
  - intros _. exists []. symmetry. apply app_nil_r.
Qed.

Lemma touches_only_trans (filepath : string) (snapshot : option string)
    (st1 st2 st3 : State) :
  touches_only filepath snapshot st1 st2 ->
  touches_only filepath snapshot st2 st3 ->
  touches_only filepath snapshot st1 st3.
Proof.
  intros ((t1 & Ht1 & Hw1) & Hf1 & Hg1) ((t2 & Ht2 & Hw2) & Hf2 & Hg2).
  split; [|split].
  - exists (t1 ++ t2). split; [rewrite Ht2, Ht1, app_assoc; reflexivity|].
    apply Forall_app; split; assumption.
  - intros f H1 H2. rewrite Hf2, Hf1 by assumption. reflexivity.
  - intros Hs. destruct (Hg1 Hs) as [a1 Ha1]. destruct (Hg2 Hs) as [a2 Ha2].
    exists (a1 ++ a2). rewrite Ha2, Ha1, app_assoc. reflexivity.
Qed.

Lemma get_batch_touches (w : World) (fuel : nat) (api_path : string)
    (timeout : Value) (filepath : string) (snapshot : option string)
    (st : State) :
  touches_only filepath snapshot st
    (snd (get_batch w fuel api_path timeout st)).
Proof.
  destruct (get_batch_spec w fuel api_path timeout st _ _
              (surjective_pairing _)) as (Hf & _ & _ & t & Ht & Hw & _).
  split; [|split].
  - exists t. split; [exact Ht|].
    eapply Forall_impl; [exact Hw|]. intros [] He; simpl in *;
      try exact I; discriminate.
  - intros f _ _. rewrite Hf. reflexivity.
  - intros _. exists []. rewrite Hf. symmetry. apply app_nil_r.
Qed.

Lemma append_to_csv_touches (filepath : string) (snapshot : option string)
    (bs : list DataFrame) (d : DataFrame) (st : State) :
  touches_only filepath snapshot st (append_to_csv bs d filepath st).
Proof.
  split; [|split].
  - exists [EvAppendCsv filepath bs d]. split; [reflexivity|].
    repeat constructor.
  - intros f Hf _. simpl. rewrite lookup_insert_ne by congruence.
    reflexivity.
  - intros _. exists d. simpl. rewrite lookup_insert_eq. reflexivity.
Qed.

Lemma flush_if_huge_touches (filepath : string) (snapshot : option string)
    (last : Z) (batches1 : list DataFrame) (df0 : option DataFrame)
    (st : State) :
  touches_only filepath snapshot st
    (snd (flush_if_huge filepath last batches1 df0 st)).
Proof.
  unfold flush_if_huge.
  destruct (param_int "limit" st) as [l|e|];
    try apply touches_only_refl.
  destruct (len batches1 * l >=? 5000); simpl.
  - apply append_to_csv_touches.
  - apply touches_only_refl.
Qed.

Lemma set_param_touches (filepath : string) (snapshot : option string)
    (k : string) (v : Value) (st : State) :
  touches_only filepath snapshot st (set_param k v st).
Proof.
  split; [|split].
  - exists []. split; [symmetry; apply app_nil_r | constructor].
  - reflexivity.
  - intros _. exists []. symmetry. apply app_nil_r.
Qed.

Lemma trade_page_touches (filepath : string) (snapshot : option string)
    (new_batch : DataFrame) (loc : Locals) (st : State) :
  touches_only filepath snapshot st
    (snd (trade_page filepath new_batch loc st)).
Proof.
  unfold trade_page. destruct new_batch as [|r rs];
    [apply touches_only_refl|].
  eapply touches_only_trans; [apply set_param_touches|].
  apply flush_if_huge_touches.
Qed.

Lemma candle_page_touches (filepath : string) (snapshot : option string)
    (previous_timestamp : Z) (new_batch : DataFrame) (loc : Locals)
    (st : State) :
  touches_only filepath snapshot st
    (snd (candle_page filepath previous_timestamp new_batch loc st)).
Proof.
  unfold candle_page. destruct new_batch as [|r rs];
    [apply touches_only_refl|].
  destruct (previous_timestamp =? max_key r rs);
    [apply touches_only_refl|].
  apply flush_if_huge_touches.
Qed.

Lemma trade_loop_touches (w : World) (filepath : string)
    (snapshot : option string) (fuel : nat) :
  forall previous_id last_id loc st,
  touches_only filepath snapshot st
    (snd (trade_loop w fuel filepath previous_id last_id loc st)).
Proof.
  induction fuel as [|fuel IH]; intros previous_id last_id loc st; simpl;
    [apply touches_only_refl|].
  destruct (previous_id =? last_id); [apply touches_only_refl|].
  destruct ((previous_id >=? last_id) && (previous_id >? 0));
    [apply touches_only_refl|].
  pose proof (get_batch_touches w fuel "aggTrades" (timeout (args w))
                filepath snapshot st) as Hg.
  destruct (get_batch w fuel "aggTrades" (timeout (args w)) st)
    as [[new_batch|e|] st1]; simpl in *; try exact Hg.
  pose proof (trade_page_touches filepath snapshot new_batch loc st1) as Hp.
  destruct (trade_page filepath new_batch loc st1) as [[[|l loc']|e|] st2];
    simpl in *; try (eapply touches_only_trans; eassumption).
  eapply touches_only_trans; [exact Hg|].
  eapply touches_only_trans; [exact Hp|]. apply IH.
Qed.

Lemma candle_loop_touches (w : World) (filepath : string)
    (snapshot : option string) (fuel : nat) :
  forall previous_timestamp last_timestamp loc st,
  touches_only filepath snapshot st
    (snd (candle_loop w fuel filepath previous_timestamp last_timestamp
                      loc st)).
Proof.
  induction fuel as [|fuel IH];
    intros previous_timestamp last_timestamp loc st; simpl;
    [apply touches_only_refl|].
  destruct (bool_decide (previous_timestamp = Some last_timestamp));
    [apply touches_only_refl|].
  destruct (date_fromtimestamp w last_timestamp) as [day|e|];
    try apply touches_only_refl.
  destruct (day >=? today w); [apply touches_only_refl|].
  set (st0 := set_param "startTime" (VInt (last_timestamp + 1)) st).
  pose proof (set_param_touches filepath snapshot "startTime"
                (VInt (last_timestamp + 1)) st) as H0. fold st0 in H0.
  pose proof (get_batch_touches w fuel "klines" (VInt 30)
                filepath snapshot st0) as Hg.
  destruct (get_batch w fuel "klines" (VInt 30) st0)
    as [[new_batch|e|] st1]; simpl in *;
    try exact (touches_only_trans _ _ _ _ _ H0 Hg).
  pose proof (candle_page_touches filepath snapshot last_timestamp new_batch
                loc st1) as Hp.
  destruct (candle_page filepath last_timestamp new_batch loc st1)
    as [[[|l loc']|e|] st2]; simpl in *;
    try exact (touches_only_trans _ _ _ _ _ H0
                 (touches_only_trans _ _ _ _ _ Hg Hp)).
  eapply touches_only_trans; [exact H0|].
  eapply touches_only_trans; [exact Hg|].
  eapply touches_only_trans; [exact Hp|]. apply IH.
Qed.

Lemma finish_run_touches (filepath base quote : string) (wp : bool)
    (old_lines : Z) (loc : Locals) (st : State) :
  filepath <> parquet_path base quote ->
  touches_only filepath (if wp then Some (parquet_path base quote) else None)
    st (snd (finish_run filepath base quote wp old_lines loc st)).
Proof.
  intros Hne. unfold finish_run.
  assert (Hpq : forall d,
    touches_only filepath (Some (parquet_path base quote)) st
      (write_raw_to_parquet d (parquet_path base quote) st)).
  { intros d. split; [|split].
    - eexists. split; [reflexivity|]. repeat constructor.
    - intros f _ Hf. simpl. rewrite lookup_insert_ne by congruence.
      reflexivity.
    - intros _. exists []. simpl.
      rewrite lookup_insert_ne by congruence.
      symmetry. apply app_nil_r. }
  destruct wp.
  - destruct (len (batches loc) >? 1); [apply Hpq|].
    destruct (df loc); [apply Hpq | apply touches_only_refl].
  - destruct (len (batches loc) >? 1); simpl.
    + apply append_to_csv_touches.
    + apply touches_only_refl.
Qed.

Lemma trade_resume_touches (filepath : string) (snapshot : option string)
    (st : State) :
  touches_only filepath snapshot st (snd (trade_resume filepath st)).
Proof.
  unfold trade_resume.
  destruct (params st !! "fromId") as [[from_id| |]|];
    try apply touches_only_refl.
  destruct (from_id =? 0); [|apply set_param_touches].
  destruct (files st !! filepath) as [disk|]; [|apply touches_only_refl].
  destruct (column_max disk);
    [apply set_param_touches | apply touches_only_refl].
Qed.

(** X7: a driver run writes to its own History Store and, with the parquet
    flag, to its own snapshot, and to nothing else: every other file is
    unchanged, whatever the data source answers and wherever the run stops;
    and what the History Store held before the run is still its beginning
    afterwards. *)
Theorem drivers_touch_own_files (w : World) (fuel : nat)
    (base quote interval_ : string) (with_parquet : bool) (st : State) :
  let snapshot :=
    if with_parquet then Some (parquet_path base quote) else None in
  touches_only (trade_filepath base quote) snapshot st
    (snd (all_trade_to_csv w fuel base quote with_parquet st)) /\
  touches_only (candle_filepath base quote interval_) snapshot st
    (snd (all_candle_to_csv w fuel base quote interval_ with_parquet st)).
Proof.
  intros snapshot. split.
  - unfold all_trade_to_csv.
    pose proof (trade_resume_touches (trade_filepath base quote) snapshot st)
      as Hr.
    destruct (trade_resume (trade_filepath base quote) st)
      as [[[batches0 last_id]|e|] st1]; simpl in *; try exact Hr.
    pose proof (trade_loop_touches w (trade_filepath base quote) snapshot
                  fuel (-1) last_id (mkLocals batches0 None) st1) as Hl.
    destruct (trade_loop w fuel _ _ _ _ st1) as [[loc|e|] st2]; simpl in *;
      try (eapply touches_only_trans; eassumption).
    eapply touches_only_trans; [exact Hr|].
    eapply touches_only_trans; [exact Hl|].
    apply finish_run_touches. discriminate.
  - unfold all_candle_to_csv.
    destruct (candle_resume (candle_filepath base quote interval_) st)
      as [out st1] eqn:Hres.
    apply candle_resume_spec in Hres as (-> & _).
    destruct out as [[batches0 last_timestamp]|e|]; simpl;
      try apply touches_only_refl.
    pose proof (candle_loop_touches w (candle_filepath base quote interval_)
                  snapshot fuel None last_timestamp (mkLocals batches0 None)
                  st) as Hl.
    destruct (candle_loop w fuel _ _ _ _ st) as [[loc|e|] st2]; simpl in *;
      try exact Hl.
    eapply touches_only_trans; [exact Hl|].
    apply finish_run_touches. discriminate.
Qed.

(** ** What becomes of the pages *)

Lemma flushed_app (t1 t2 : list Event) :
  flushed (t1 ++ t2) = flushed t1 ++ flushed t2.
Proof. unfold flushed. rewrite map_app, concat_app. reflexivity. Qed.

Lemma flushed_no_write (t : list Event) :
  Forall (fun e => is_write e = false) t -> flushed t = [].
Proof.
  induction 1 as [|e t He Ht IH]; [reflexivity|].
  change (flushed (e :: t)) with (flushed ([e] ++ t)).
  rewrite flushed_app, IH, app_nil_r.
  destruct e; try reflexivity; discriminate.
Qed.

(** A page returned by [get_batch] is empty or the body of a 200 response
    of the data source. *)
Lemma get_batch_origin (w : World) (fuel : nat) (api_path : string)
    (timeout : Value) :
  forall (st : State) (json : DataFrame),
  fst (get_batch w fuel api_path timeout st) = Ok json ->
  json = [] \/ exists n p, net w n api_path p = NetResponse 200 json.
Proof.
  induction fuel as [|fuel IH]; intros st json; simpl; [discriminate|].
  destruct (try_block w api_path timeout st) as [r st1] eqn:Htry.
  destruct r as [e|e|status j]; [apply IH | discriminate |].
  destruct (status =? 200) eqn:E; simpl; intros [= <-]; [|left; reflexivity].
  apply Z.eqb_eq in E. subst status. right.
  revert Htry. unfold try_block, requests_get.
  assert (Hplain :
    match net w (calls st) api_path (params st) with
    | NetRaise e =>
        (Caught e,
         tick (log (EvRequest api_path (params st) timeout None) st))
    | NetResponse status_code json' =>
        (Response status_code json',
         tick (log (EvRequest api_path (params st) timeout None) st))
    end = (Response 200 j, st1) ->
    exists n p, net w n api_path p = NetResponse 200 j).
  { destruct (net w (calls st) api_path (params st)) eqn:Hn;
      intros; simplify_eq; eauto. }
  destruct (API_KEY w); [|exact Hplain].
  destruct (API_SECRET w); [|exact Hplain].
  destruct (time_net w (calls st)) as [?|[?|]]; try discriminate.
  cbv zeta.
  match goal with
  | |- context [net w ?c ?a ?p] => destruct (net w c a p) eqn:Hn
  end; intros; simplify_eq; eauto.
Qed.

Lemma flush_if_huge_keeps (filepath : string) (last : Z)
    (batches1 : list DataFrame) (df0 : option DataFrame) (st : State)
    (l : Z) (loc' : Locals) (st' : State) :
  flush_if_huge filepath last batches1 df0 st = (Ok (Continue l loc'), st') ->
  flushed (new_events st st') ++ batches loc' = batches1.
Proof.
  unfold flush_if_huge.
  destruct (param_int "limit" st) as [lim|e|]; try discriminate.
  destruct (len batches1 * lim >=? 5000); intros [= <- <- <-].
  - erewrite new_events_app by (simpl; reflexivity).
    simpl. unfold flushed. simpl. rewrite !app_nil_r. reflexivity.
  - rewrite new_events_refl. reflexivity.
Qed.

Lemma trade_page_keeps (filepath : string) (new_batch : DataFrame)
    (loc : Locals) (st : State) (l : Z) (loc' : Locals) (st' : State) :
  trade_page filepath new_batch loc st = (Ok (Continue l loc'), st') ->
  new_batch <> [] /\
  flushed (new_events st st') ++ batches loc' = batches loc ++ [new_batch].
Proof.
  unfold trade_page. destruct new_batch as [|r rs]; [discriminate|].
  intros H. split; [discriminate|].
  apply flush_if_huge_keeps in H. exact H.
Qed.

Lemma candle_page_keeps (filepath : string) (previous_timestamp : Z)
    (new_batch : DataFrame) (loc : Locals) (st : State) (l : Z)
    (loc' : Locals) (st' : State) :
  candle_page filepath previous_timestamp new_batch loc st
    = (Ok (Continue l loc'), st') ->
  new_batch <> [] /\
  flushed (new_events st st') ++ batches loc' = batches loc ++ [new_batch].
Proof.
  unfold candle_page. destruct new_batch as [|r rs]; [discriminate|].
  destruct (previous_timestamp =? max_key r rs); [discriminate|].
  intros H. split; [discriminate|].
  apply flush_if_huge_keeps in H. exact H.
Qed.

(** In the loops nothing is lost: what has been flushed, followed by what
    is still in the accumulator, is the accumulator the loop began with
    followed by pages of the source. *)
Lemma trade_loop_keeps (w : World) (filepath : string) (fuel : nat) :
  forall previous_id last_id loc st loc' st',
  trade_loop w fuel filepath previous_id last_id loc st = (Ok loc', st') ->
  exists pages,
    flushed (new_events st st') ++ batches loc' = batches loc ++ pages /\
    Forall (from_source w "aggTrades") pages.
Proof.
  induction fuel as [|fuel IH]; intros previous_id last_id loc st loc' st';
    simpl; [discriminate|].
  assert (Hnil : (Ok loc, st) = (Ok loc', st') ->
    exists pages,
      flushed (new_events st st') ++ batches loc' = batches loc ++ pages /\
      Forall (from_source w "aggTrades") pages).
  { intros [= <- <-]. exists []. rewrite new_events_refl, app_nil_r.
    split; [reflexivity | constructor]. }
  destruct (previous_id =? last_id); [exact Hnil|].
  destruct ((previous_id >=? last_id) && (previous_id >? 0)); [exact Hnil|].
  destruct (get_batch w fuel "aggTrades" (timeout (args w)) st)
    as [out st1] eqn:Hg.
  pose proof (get_batch_origin w fuel "aggTrades" (timeout (args w)) st)
    as Horigin. rewrite Hg in Horigin. simpl in Horigin.
  apply get_batch_spec in Hg as (_ & _ & _ & t1 & Ht1 & Hw1 & _).
  destruct out as [new_batch|e|]; try discriminate.
  destruct (trade_page filepath new_batch loc st1) as [o st2] eqn:Hp.
  destruct o as [[|l loc1]|e|]; try discriminate.
  - apply trade_page_spec in Hp as (_ & _ & _ & Hb & _).
    destruct (Hb eq_refl) as [_ ->]. intros [= <- <-].
    exists []. rewrite (new_events_app _ _ _ Ht1), (flushed_no_write _ Hw1).
    rewrite app_nil_r. split; [reflexivity | constructor].
  - pose proof Hp as Hp'.
    apply trade_page_spec in Hp' as (_ & (t2 & Ht2 & _) & _).
    apply trade_page_keeps in Hp as [Hne Hkeep].
    rewrite (new_events_app _ _ _ Ht2) in Hkeep.
    intros Hloop.
    destruct (trade_loop_trace w fuel filepath last_id l loc1 st2)
      as [t3 Ht3]. rewrite Hloop in Ht3. simpl in Ht3.
    apply IH in Hloop as (pages & Hrest & Hsrc).
    rewrite (new_events_app _ _ _ Ht3) in Hrest.
    exists (new_batch :: pages). split.
    + erewrite new_events_app.
      2:{ rewrite Ht3, Ht2, Ht1, <- !app_assoc. reflexivity. }
      rewrite !flushed_app, (flushed_no_write _ Hw1). simpl.
      rewrite <- app_assoc, Hrest, app_assoc, Hkeep, <- app_assoc.
      reflexivity.
    + constructor; [|exact Hsrc]. split; [exact Hne|].
      destruct (Horigin new_batch eq_refl) as [->|H]; [contradiction|exact H].
Qed.

Lemma candle_loop_keeps (w : World) (filepath : string) (fuel : nat) :
  forall previous_timestamp last_timestamp loc st loc' st',
  candle_loop w fuel filepath previous_timestamp last_timestamp loc st
    = (Ok loc', st') ->
  exists pages,
    flushed (new_events st st') ++ batches loc' = batches loc ++ pages /\
    Forall (from_source w "klines") pages.
Proof.
  induction fuel as [|fuel IH];
    intros previous_timestamp last_timestamp loc st loc' st';
    simpl; [discriminate|].
  assert (Hnil : (Ok loc, st) = (Ok loc', st') ->
    exists pages,
      flushed (new_events st st') ++ batches loc' = batches loc ++ pages /\
      Forall (from_source w "klines") pages).
  { intros [= <- <-]. exists []. rewrite new_events_refl, app_nil_r.
    split; [reflexivity | constructor]. }
  destruct (bool_decide (previous_timestamp = Some last_timestamp));
    [exact Hnil|].
  destruct (date_fromtimestamp w last_timestamp) as [day|e|];
    try discriminate.
  destruct (day >=? today w); [exact Hnil|].
  set (st0 := set_param "startTime" (VInt (last_timestamp + 1)) st).
  destruct (get_batch w fuel "klines" (VInt 30) st0) as [out st1] eqn:Hg.
  pose proof (get_batch_origin w fuel "klines" (VInt 30) st0) as Horigin.
  rewrite Hg in Horigin. simpl in Horigin.
  apply get_batch_spec in Hg as (_ & _ & _ & t1 & Ht1 & Hw1 & _).
  change (trace st0) with (trace st) in Ht1.
  destruct out as [new_batch|e|]; try discriminate.
  destruct (candle_page filepath last_timestamp new_batch loc st1)
    as [o st2] eqn:Hp.
  destruct o as [[|l loc1]|e|]; try discriminate.
  - apply candle_page_spec in Hp as (_ & _ & _ & _ & Hb & _).
    destruct (Hb eq_refl) as [-> _]. intros [= <- <-].
    exists []. rewrite (new_events_app _ _ _ Ht1), (flushed_no_write _ Hw1).
    rewrite app_nil_r. split; [reflexivity | constructor].
  - pose proof Hp as Hp'.
    apply candle_page_spec in Hp' as (_ & _ & (t2 & Ht2 & _) & _).
    apply candle_page_keeps in Hp as [Hne Hkeep].
    rewrite (new_events_app _ _ _ Ht2) in Hkeep.
    intros Hloop.
    destruct (candle_loop_trace w fuel filepath (Some last_timestamp) l loc1
                st2) as [t3 Ht3]. rewrite Hloop in Ht3. simpl in Ht3.
    apply IH in Hloop as (pages & Hrest & Hsrc).
    rewrite (new_events_app _ _ _ Ht3) in Hrest.
    exists (new_batch :: pages). split.
    + erewrite new_events_app.
      2:{ rewrite Ht3, Ht2, Ht1, <- !app_assoc. reflexivity. }
      rewrite !flushed_app, (flushed_no_write _ Hw1). simpl.
      rewrite <- app_assoc, Hrest, app_assoc, Hkeep, <- app_assoc.
      reflexivity.
    + constructor; [|exact Hsrc]. split; [exact Hne|].
      destruct (Horigin new_batch eq_refl) as [->|H]; [contradiction|exact H].
Qed.

Lemma finish_run_keeps (filepath base quote : string) (old_lines : Z)
    (loc : Locals) (st : State) (n : Z) (st' : State) :
  finish_run filepath base quote false old_lines loc st = (Ok n, st') ->
  exists dropped,
    flushed (new_events st st') ++ dropped = batches loc /\
    (length dropped <= 1)%nat.
Proof.
  unfold finish_run. destruct (len (batches loc) >? 1) eqn:E; simpl.
  - intros [= <- <-]. exists [].
    erewrite new_events_app by (simpl; reflexivity).
    unfold flushed. simpl. rewrite !app_nil_r. split; [reflexivity | lia].
  - intros [= <- <-]. exists (batches loc). rewrite new_events_refl.
    split; [reflexivity|].
    rewrite Z.gtb_ltb in E. apply Z.ltb_ge in E. unfold len in E. lia.
Qed.



(** ** The trade cursor never goes back *)

Lemma requests_app (t1 t2 : list Event) :
  requests (t1 ++ t2) = requests t1 ++ requests t2.
Proof. unfold requests. apply omap_app. Qed.

Lemma requests_none (t : list Event) :
  first_request t = None -> requests t = [].
Proof.
  induction t as [|e t IH]; simpl; [reflexivity|].
  unfold requests. simpl. destruct (is_request e); [discriminate|].
  exact IH.
Qed.

Lemma cursors_of_keeps (k : string) (p0 : Params) (c : Z) (t : list Event) :
  k <> "signiature" -> k <> "timestamp" ->
  p0 !! k = Some (VInt c) ->
  Forall (request_keeps p0) t ->
  cursors_of k t (replicate (length (requests t)) c).
Proof.
  intros Hs Ht Hc. unfold cursors_of.
  induction 1 as [|e t He Hall IH]; [reflexivity|].
  unfold requests in *. simpl.
  destruct (is_request e) as [p|] eqn:Hp; [|exact IH].
  simpl. rewrite (He p Hp k Hs Ht), Hc. f_equal. exact IH.
Qed.

Lemma cursors_of_app (k : string) (t1 t2 : list Event) (cs1 cs2 : list Z) :
  cursors_of k t1 cs1 -> cursors_of k t2 cs2 ->
  cursors_of k (t1 ++ t2) (cs1 ++ cs2).
Proof.
  unfold cursors_of. intros H1 H2.
  rewrite requests_app, !fmap_app, H1, H2. reflexivity.
Qed.

Lemma cursors_of_nil (k : string) (t : list Event) :
  first_request t = None -> cursors_of k t [].
Proof.
  intros H. unfold cursors_of. rewrite (requests_none _ H). reflexivity.
Qed.

Lemma max_key_ge (r : Row) (rs : list Row) : key r <= max_key r rs.
Proof.
  unfold max_key. generalize (key r) as m.
  induction rs as [|x rs IH]; intros m; simpl; [lia|].
  specialize (IH (Z.max m (key x))). lia.
Qed.

Lemma StronglySorted_replicate (n : nat) (c : Z) :
  StronglySorted Z.le (replicate n c).
Proof.
  induction n as [|n IH]; simpl; constructor; [exact IH|].
  apply Forall_forall. intros x Hx. apply elem_of_replicate in Hx as [-> _].
  lia.
Qed.

Section TradeCursor.

Variable w : World.
Hypothesis ids_nonneg :
  forall n p status_code json,
    net w n "aggTrades" p = NetResponse status_code json ->
    Forall (fun r => 0 <= key r) json.

Lemma trade_loop_cursors (filepath : string) (fuel : nat) :
  forall previous_id last_id loc st c,
  params st !! "fromId" = Some (VInt c) -> c <= last_id + 1 ->
  exists cs,
    cursors_of "fromId"
      (new_events st
         (snd (trade_loop w fuel filepath previous_id last_id loc st))) cs /\
    StronglySorted Z.le cs /\ Forall (Z.le c) cs /\
    (cs <> [] ->
     previous_id <> last_id /\ ~ (previous_id >= last_id /\ previous_id > 0)).
Proof.
  induction fuel as [|fuel IH]; intros previous_id last_id loc st c Hc Hle;
    simpl.
  { exists []. rewrite new_events_refl.
    split; [reflexivity|]. split; [constructor|].
    split; [constructor | congruence]. }
  assert (Hnil : exists cs,
    cursors_of "fromId" (new_events st st) cs /\
    StronglySorted Z.le cs /\ Forall (Z.le c) cs /\
    (cs <> [] ->
     previous_id <> last_id /\ ~ (previous_id >= last_id /\ previous_id > 0))).
  { exists []. rewrite new_events_refl.
    split; [reflexivity|]. split; [constructor|].
    split; [constructor | congruence]. }
  destruct (previous_id =? last_id) eqn:E1; [exact Hnil|].
  destruct ((previous_id >=? last_id) && (previous_id >? 0)) eqn:E2;
    [exact Hnil|].
  assert (Hhead : previous_id <> last_id /\
                  ~ (previous_id >= last_id /\ previous_id > 0)).
  { apply Z.eqb_neq in E1. split; [exact E1|]. intros [Ha Hb].
    apply andb_false_iff in E2 as [E2|E2].
    - rewrite Z.geb_leb in E2. apply Z.leb_gt in E2. lia.
    - rewrite Z.gtb_ltb in E2. apply Z.ltb_ge in E2. lia. }
  clear Hnil.
  destruct (get_batch w fuel "aggTrades" (timeout (args w)) st)
    as [out st1] eqn:Hg.
  pose proof (get_batch_origin w fuel "aggTrades" (timeout (args w)) st)
    as Horigin. rewrite Hg in Horigin. simpl in Horigin.
  apply get_batch_spec in Hg as (_ & _ & _ & t1 & Ht1 & _ & Hk1 & _).
  pose proof (cursors_of_keeps "fromId" (params st) c t1
                ltac:(discriminate) ltac:(discriminate) Hc Hk1) as Hcs1.
  set (cs1 := replicate (length (requests t1)) c) in *.
  assert (Hs1 : StronglySorted Z.le cs1).
  { apply StronglySorted_replicate. }
  assert (Hf1 : Forall (Z.le c) cs1).
  { subst cs1. apply Forall_forall. intros x Hx.
    apply elem_of_replicate in Hx as [-> _]. lia. }
  assert (Hall1 : forall x, x ∈ cs1 -> x = c).
  { subst cs1. intros x Hx. apply elem_of_replicate in Hx as [-> _].
    reflexivity. }
  assert (Hend : forall st', trace st' = trace st1 ++ [] \/
                             (exists t2, trace st' = trace st1 ++ t2 /\
                                         first_request t2 = None) ->
    exists cs,
      cursors_of "fromId" (new_events st st') cs /\
      StronglySorted Z.le cs /\ Forall (Z.le c) cs /\
      (cs <> [] ->
       previous_id <> last_id /\
       ~ (previous_id >= last_id /\ previous_id > 0))).
  { intros st' Hst'. exists cs1.
    assert (Ht' : exists t2, trace st' = trace st1 ++ t2 /\
                             first_request t2 = None).
    { destruct Hst' as [H|H]; [exists []; split; [exact H|reflexivity]|exact H]. }
    destruct Ht' as (t2 & Ht2 & Hn2).
    erewrite new_events_app by (rewrite Ht2, Ht1, <- app_assoc; reflexivity).
    split; [|auto].
    rewrite <- (app_nil_r cs1). apply cursors_of_app; [exact Hcs1|].
    apply cursors_of_nil. exact Hn2. }
  destruct out as [new_batch|e|]; simpl;
    try (apply Hend; left; symmetry; rewrite app_nil_r; reflexivity).
  destruct (trade_page filepath new_batch loc st1) as [o st2] eqn:Hp.
  pose proof (trade_page_spec _ _ _ _ _ _ Hp)
    as (_ & (t2 & Ht2 & Hn2) & _ & _ & Hcont).
  destruct o as [[|l loc1]|e|]; simpl;
    try (apply Hend; right; exists t2; split; assumption).
  destruct (Hcont l loc1 eq_refl) as [Hmax Hparams].
  assert (Hl0 : 0 <= l).
  { destruct (Horigin new_batch eq_refl) as [->|(n & p & Hn)];
      [discriminate|].
    apply ids_nonneg in Hn. destruct new_batch as [|r rs]; [discriminate|].
    simpl in Hmax. injection Hmax as <-.
    apply Forall_cons in Hn as [Hr _]. pose proof (max_key_ge r rs). lia. }
  destruct (IH last_id l loc1 st2 (l + 1)) as (cs3 & Hcs3 & Hs3 & Hf3 & Hh3).
  { rewrite Hparams. apply lookup_insert_eq. }
  { lia. }
  destruct (trade_loop_trace w fuel filepath last_id l loc1 st2) as [t3 Ht3].
  rewrite (new_events_app _ _ _ Ht3) in Hcs3.
  exists (cs1 ++ cs3).
  assert (Hup : cs3 <> [] -> c <= l + 1).
  { intros H3. destruct (Hh3 H3) as [Hn Hb]. lia. }
  split.
  - erewrite new_events_app.
    2:{ rewrite Ht3, Ht2, Ht1, <- !app_assoc. reflexivity. }
    apply cursors_of_app; [exact Hcs1|].
    rewrite <- (app_nil_l cs3). apply cursors_of_app; [|exact Hcs3].
    apply cursors_of_nil. exact Hn2.
  - split; [|split; [|auto]].
    + apply StronglySorted_app. split_and!; [|exact Hs1|exact Hs3].
      intros x1 x2 H1 H2. rewrite (Hall1 x1 H1).
      assert (cs3 <> []) as H3 by (intros ->; inversion H2).
      specialize (Hup H3).
      rewrite Forall_forall in Hf3. specialize (Hf3 x2 H2). lia.
    + apply Forall_app. split; [exact Hf1|].
      apply Forall_forall. intros x Hx.
      assert (cs3 <> []) as H3 by (intros ->; inversion Hx).
      specialize (Hup H3).
      rewrite Forall_forall in Hf3. specialize (Hf3 x Hx). lia.
Qed.

End TradeCursor.



(** ** The instrument list *)

Lemma str_split_length (sep : Ascii.ascii) (s : string) :
  length (str_split sep s) = S (count_char sep s).
Proof.
  induction s as [|c s IH]; simpl; [reflexivity|].
  destruct (Ascii.eqb c sep); simpl; [rewrite IH; reflexivity|].
  destruct (str_split sep s); simpl in *; [discriminate | exact IH].
Qed.

Lemma count_char_app (c : Ascii.ascii) (a b : string) :
  count_char c (a +:+ b) = (count_char c a + count_char c b)%nat.
Proof.
  induction a as [|x a IH]; simpl; [reflexivity|].
  destruct (Ascii.eqb x c); simpl; rewrite IH; reflexivity.
Qed.

Lemma str_split_plain (sep : Ascii.ascii) (s : string) :
  count_char sep s = O -> str_split sep s = [s].
Proof.
  induction s as [|c s IH]; simpl; [reflexivity|].
  destruct (Ascii.eqb c sep); [discriminate|].
  intros H. rewrite (IH H). reflexivity.
Qed.

Lemma str_split_app (sep : Ascii.ascii) (a b : string) :
  count_char sep a = O ->
  str_split sep (a +:+ String sep b) = a :: str_split sep b.
Proof.
  induction a as [|c a IH]; simpl.
  - intros _. rewrite Ascii.eqb_refl. reflexivity.
  - destruct (Ascii.eqb c sep); [discriminate|].
    intros H. rewrite (IH H). reflexivity.
Qed.

Lemma str_join_cons (sep x : string) (l : list string) :
  l <> [] -> str_join sep (x :: l) = x +:+ sep +:+ str_join sep l.
Proof. destruct l; [contradiction | reflexivity]. Qed.

Lemma str_split_not_nil (sep : Ascii.ascii) (s : string) :
  str_split sep s <> [].
Proof.
  pose proof (str_split_length sep s) as Hl.
  destruct (str_split sep s); [discriminate | discriminate].
Qed.

Lemma str_split_join (sep : Ascii.ascii) (s : string) :
  str_join (String sep EmptyString) (str_split sep s) = s.
Proof.
  induction s as [|c s IH]; [reflexivity|].
  cbn [str_split].
  destruct (Ascii.eqb c sep) eqn:E.
  - apply Ascii.eqb_eq in E. subst c.
    rewrite str_join_cons by apply str_split_not_nil.
    rewrite IH. reflexivity.
  - pose proof (str_split_not_nil sep s) as Hne.
    destruct (str_split sep s) as [|p ps] eqn:Hs; [contradiction|].
    destruct ps as [|p' ps].
    + simpl in *. rewrite IH. reflexivity.
    + rewrite str_join_cons by discriminate.
      rewrite str_join_cons in IH by discriminate.
      simpl. rewrite <- IH. reflexivity.
Qed.

(** X10: the explicit instrument list is parsed back as it was written:
    for a non-empty list of instruments whose names hold no comma and no
    dash, splitting the [--pairs] string that names them gives exactly these
    instruments, in order, each as a pair; and joining the pieces of any
    [--pairs] string with the separators gives the string back. *)
Theorem parse_pairs_roundtrip (l : list (string * string)) :
  l <> [] ->
  Forall (fun bq => plain_name (fst bq) /\ plain_name (snd bq)) l ->
  parse_pairs (format_pairs l) = map (fun bq => [fst bq; snd bq]) l /\
  forall pairs,
    str_join "," (map (str_join "-") (parse_pairs pairs)) = pairs.
Proof.
  intros Hne Hall. split.
  - unfold parse_pairs, format_pairs.
    induction Hall as [|[b q] l [[Hb1 Hb2] [Hq1 Hq2]] Hall IH];
      [contradiction|].
    cbn [fst snd] in *.
    assert (Hpiece : str_split dash (b +:+ "-" +:+ q) = [b; q]).
    { change (b +:+ "-" +:+ q) with (b +:+ String dash q).
      rewrite (str_split_app dash b q Hb2), (str_split_plain dash q Hq2).
      reflexivity. }
    assert (Hcomma : count_char comma (b +:+ "-" +:+ q) = O).
    { change (b +:+ "-" +:+ q) with (b +:+ String dash q).
      rewrite count_char_app. cbn [count_char].
      change (Ascii.eqb dash comma) with false.
      rewrite Hb1, Hq1. reflexivity. }
    rewrite !map_cons. cbn [fst snd].
    destruct l as [|bq' l].
    + cbn [map str_join]. rewrite (str_split_plain comma _ Hcomma).
      cbn [map]. rewrite Hpiece. reflexivity.
    + rewrite str_join_cons by discriminate.
      change ("," +:+ ?r) with (String comma r).
      rewrite (str_split_app comma _ _ Hcomma).
      rewrite map_cons, Hpiece. f_equal. apply IH. discriminate.
  - intros pairs. unfold parse_pairs. rewrite map_map.
    rewrite (map_ext _ (fun s => s)) by (intros s; apply str_split_join).
    rewrite map_id. apply str_split_join.
Qed.

Lemma parse_pairs_roundtrip_witness :
  parse_pairs "BTC-USDT,ETH-BTC" = [["BTC"; "USDT"]; ["ETH"; "BTC"]].
Proof.
  refine (proj1 (parse_pairs_roundtrip [("BTC", "USDT"); ("ETH", "BTC")]
                   _ _)).
  - discriminate.
  - repeat constructor.
Defined.

(** X11: an explicit [--pairs] list never parses to an empty list, and a
    piece of it that does not hold exactly one dash (the empty string of an
    empty list, ['BTCUSDT'], ['A-B-C']) cannot be unpacked into base and
    quote: when its turn comes, the loop of [main] raises a [ValueError]
    before any request is made for it. *)
Theorem malformed_pair_raises (w : World) (fuel : nat) (pairs piece : string)
    (rest : list (list string)) (new_lines : option Z) (st : State) :
  count_char dash piece <> 1%nat ->
  parse_pairs pairs <> [] /\
  main_loop w fuel (str_split dash piece :: rest) new_lines st
  = (Raise (ValueError "unpack"), st).
Proof.
  intros Hdash. split.
  - unfold parse_pairs. pose proof (str_split_length comma pairs) as Hl.
    destruct (str_split comma pairs); [discriminate | discriminate].
  - pose proof (str_split_length dash piece) as Hl. simpl.
    destruct (str_split dash piece) as [|a [|b [|c l]]]; try reflexivity.
    simpl in Hl. lia.
Qed.

Lemma malformed_pair_raises_witness :
  main_loop typo_world 5 (parse_pairs "BTCUSDT") None fresh_state
  = (Raise (ValueError "unpack"), fresh_state).
Proof.
  apply (proj2 (malformed_pair_raises typo_world 5 "BTCUSDT" "BTCUSDT" []
                  None fresh_state ltac:(simpl; lia))).
Defined.

(** ** The parquet flag and the loop of [main] *)

Lemma drivers_parquet_not_Ok (w : World) (fuel : nat)
    (base quote interval_ : string) (st : State) (n : Z) :
  fst (all_trade_to_csv w fuel base quote true st) <> Ok n /\
  fst (all_candle_to_csv w fuel base quote interval_ true st) <> Ok n.
Proof.
  split.
  - unfold all_trade_to_csv.
    destruct (trade_resume _ st) as [[[b0 l]|e|] st1]; try discriminate.
    destruct (trade_loop _ _ _ _ _ _ st1) as [[loc|e|] st2];
      try discriminate.
    destruct (finish_run_parquet (trade_filepath base quote) base quote
                (len (default [] (last b0))) loc st2)
      as [(_ & _ & ->)|(d & _ & ->)]; discriminate.
  - unfold all_candle_to_csv.
    destruct (candle_resume _ st) as [[[b0 l]|e|] st1]; try discriminate.
    destruct (candle_loop _ _ _ _ _ _ st1) as [[loc|e|] st2];
      try discriminate.
    destruct (finish_run_parquet (candle_filepath base quote interval_)
                base quote (len (default [] (last b0))) loc st2)
      as [(_ & _ & ->)|(d & _ & ->)]; discriminate.
Qed.

(** X12: with [--parquet] set, [main] never gets past the first instrument
    of its list: the loop does not complete, and the instruments after the
    first are never looked at (the outcome and the final state are those of
    the one-instrument list).  The code after the loop, the upload among
    it, is therefore never reached with the flag it asks for. *)
Theorem parquet_stops_main (w : World) (fuel : nat) (pair_ : list string)
    (rest : list (list string)) (st : State) :
  parquet (args w) = true ->
  main_loop w fuel (pair_ :: rest) None st = main_loop w fuel [pair_] None st
  /\ fst (main_loop w fuel (pair_ :: rest) None st) <> Ok tt.
Proof.
  intros Hpq. cbn [main_loop].
  destruct pair_ as [|base [|quote [|x l]]];
    try (split; [reflexivity | discriminate]).
  destruct (String.eqb (dtype (args w)) "candle").
  - unfold get_historical_candlesticks. rewrite Hpq.
    match goal with |- context [all_candle_to_csv w fuel ?b ?q ?i true ?s] =>
      pose proof (drivers_parquet_not_Ok w fuel b q i s) as Hno;
      destruct (all_candle_to_csv w fuel b q i true s) as [[n|e|] st1]
    end; simpl in *.
    + destruct (Hno n) as [_ H]. contradiction.
    + split; [reflexivity | discriminate].
    + split; [reflexivity | discriminate].
  - destruct (String.eqb (dtype (args w)) "trade").
    + unfold get_historical_agg_trades. rewrite Hpq.
      match goal with |- context [all_trade_to_csv w fuel ?b ?q true ?s] =>
        pose proof (drivers_parquet_not_Ok w fuel b q "" s) as Hno;
        destruct (all_trade_to_csv w fuel b q true s) as [[n|e|] st1]
      end; simpl in *.
      * destruct (Hno n) as [H _]. contradiction.
      * split; [reflexivity | discriminate].
      * split; [reflexivity | discriminate].
    + split; [reflexivity | discriminate].
Qed.

Lemma parquet_stops_main_witness :
  main_loop parquet_candle_world 5 [["BTC"; "USDT"]; ["ETH"; "BTC"]] None
            fresh_state
  = main_loop parquet_candle_world 5 [["BTC"; "USDT"]] None fresh_state.
Proof.
  exact (proj1 (parquet_stops_main parquet_candle_world 5 ["BTC"; "USDT"]
                  [["ETH"; "BTC"]] fresh_state eq_refl)).
Defined.

(** ** The configured start of a candle run *)

Lemma agree_but_refl (k : string) (st : State) : agree_but k st st.
Proof. repeat split; reflexivity. Qed.

Lemma agree_but_set (k : string) (v : Value) (st st' : State) :
  agree_but k st st' -> set_param k v st = set_param k v st'.
Proof.
  intros (Hf & Hc & Ht & Hp). destruct st, st'. simpl in *. subst.
  unfold set_param. simpl. f_equal.
  apply map_eq. intros k'. destruct (decide (k = k')) as [->|Hne].
  - rewrite !lookup_insert_eq. reflexivity.
  - rewrite !lookup_insert_ne by exact Hne. apply Hp. congruence.
Qed.

Lemma candle_loop_start_irrelevant (w : World) (fuel : nat)
    (filepath : string) (previous_timestamp : option Z) (last_timestamp : Z)
    (loc : Locals) (st st' : State) :
  agree_but "startTime" st st' ->
  fst (candle_loop w fuel filepath previous_timestamp last_timestamp loc st)
  = fst (candle_loop w fuel filepath previous_timestamp last_timestamp loc
                     st') /\
  agree_but "startTime"
    (snd (candle_loop w fuel filepath previous_timestamp last_timestamp loc
                      st))
    (snd (candle_loop w fuel filepath previous_timestamp last_timestamp loc
                      st')).
Proof.
  intros Hag. destruct fuel as [|fuel]; simpl; [split; auto|].
  destruct (bool_decide (previous_timestamp = Some last_timestamp));
    [split; auto|].
  destruct (date_fromtimestamp w last_timestamp) as [day|e|];
    try (split; auto; fail).
  destruct (day >=? today w); [split; auto|].
  rewrite (agree_but_set "startTime" (VInt (last_timestamp + 1)) st st' Hag).
  split; [reflexivity | apply agree_but_refl].
Qed.

Lemma finish_run_agree (k : string) (filepath base quote : string)
    (wp : bool) (old_lines : Z) (loc : Locals) (st st' : State) :
  agree_but k st st' ->
  fst (finish_run filepath base quote wp old_lines loc st)
  = fst (finish_run filepath base quote wp old_lines loc st') /\
  agree_but k (snd (finish_run filepath base quote wp old_lines loc st))
              (snd (finish_run filepath base quote wp old_lines loc st')).
Proof.
  intros (Hf & Hc & Ht & Hp). unfold finish_run.
  destruct wp, (len (batches loc) >? 1), (df loc); simpl;
    (split; [reflexivity|]);
    unfold agree_but; simpl; rewrite ?Hf, ?Ht; auto.
Qed.

(** X13: once a History Store exists for the instrument, the configured
    start ([--start-at], passed as [params['startTime']]) has no effect on a
    candle run: whatever its value, the run sends the same requests, writes
    the same files and ends with the same outcome. *)
Theorem candle_start_ignored (w : World) (fuel : nat)
    (base quote interval_ : string) (with_parquet : bool) (st : State)
    (disk : DataFrame) (v : Value) :
  files st !! candle_filepath base quote interval_ = Some disk ->
  let run := all_candle_to_csv w fuel base quote interval_ with_parquet st in
  let run' := all_candle_to_csv w fuel base quote interval_ with_parquet
                (set_param "startTime" v st) in
  fst run' = fst run /\
  files (snd run') = files (snd run) /\
  trace (snd run') = trace (snd run).
Proof.
  intros Hf run run'. subst run run'.
  unfold all_candle_to_csv, candle_resume. cbn [set_param files].
  rewrite Hf. destruct (column_max disk) as [K|]; [|auto].
  assert (Hag : agree_but "startTime"
                  (mkState (<["startTime" := v]> (params st)) (files st)
                           (calls st) (trace st)) st).
  { split; [reflexivity|]. split; [reflexivity|]. split; [reflexivity|].
    intros k' Hk. simpl. rewrite lookup_insert_ne by congruence.
    reflexivity. }
  destruct (candle_loop_start_irrelevant w fuel
              (candle_filepath base quote interval_) None K
              (mkLocals [disk] None) _ _ Hag) as [Ho Hs].
  destruct (candle_loop w fuel _ None K _ st) as [o st2].
  destruct (candle_loop w fuel _ None K _ _) as [o' st2'].
  simpl in Ho, Hs. subst o'.
  destruct o as [loc|e|]; simpl.
  - destruct (finish_run_agree "startTime"
                (candle_filepath base quote interval_) base quote
                with_parquet (len (default [] (last [disk]))) loc st2' st2 Hs)
      as [H1 (H2 & _ & H3 & _)].
    auto.
  - destruct Hs as (H2 & _ & H3 & _). auto.
  - destruct Hs as (H2 & _ & H3 & _). auto.
Qed.

Lemma candle_start_ignored_witness :
  fst (stale_candle_run [NetResponse 200 []]) = Ok 0 /\
  fst (all_candle_to_csv (world_of (script_net [NetResponse 200 []])
                                   candle_args)
         10 "BTC" "USDT" "1m" false
         (set_param "startTime" (VInt 1400000000000)
            (mkState (candle_params 0)
               {[ candle_filepath "BTC" "USDT" "1m" := small_candle_store ]}
               0 [])))
  = fst (stale_candle_run [NetResponse 200 []]).
Proof.
  split; [vm_compute; reflexivity|].
  exact (proj1 (candle_start_ignored
                  (world_of (script_net [NetResponse 200 []]) candle_args)
                  10 "BTC" "USDT" "1m" false
                  (mkState (candle_params 0)
                     {[ candle_filepath "BTC" "USDT" "1m"
                        := small_candle_store ]} 0 [])
                  small_candle_store (VInt 1400000000000) eq_refl)).
Defined.

(** ** One report per instrument *)

Lemma reports_app (t1 t2 : list Event) :
  reports (t1 ++ t2) = reports t1 ++ reports t2.
Proof. unfold reports. apply omap_app. Qed.

Lemma try_block_no_report (w : World) (api_path : string) (timeout : Value)
    (st : State) :
  exists t, trace (snd (try_block w api_path timeout st)) = trace st ++ t /\
            reports t = [].
Proof.
  unfold try_block, requests_get.
  destruct (API_KEY w) as [k|], (API_SECRET w) as [sec|];
    try (destruct (net w (calls st) api_path (params st)); simpl;
         eexists; split; reflexivity).
  destruct (time_net w (calls st)) as [e|[t|]];
    try (simpl; eexists; split; reflexivity).
  match goal with
  | |- context [net w ?c ?a ?p] => destruct (net w c a p)
  end; simpl; (eexists; split; [rewrite <- app_assoc; reflexivity|]);
  reflexivity.
Qed.

Lemma get_batch_no_report (w : World) (fuel : nat) (api_path : string)
    (timeout : Value) :
  forall st : State,
  exists t, trace (snd (get_batch w fuel api_path timeout st)) = trace st ++ t
            /\ reports t = [].
Proof.
  induction fuel as [|fuel IH]; intros st; simpl.
  - exists []. split; [symmetry; apply app_nil_r | reflexivity].
  - destruct (try_block_no_report w api_path timeout st) as (t1 & Ht1 & Hr1).
    destruct (try_block w api_path timeout st) as [r st1]. simpl in Ht1.
    destruct r as [e|e|status json].
    + match goal with |- context [get_batch w fuel api_path timeout ?s] =>
        destruct (IH s) as (t2 & Ht2 & Hr2)
      end.
      exists (t1 ++ [EvPrint (cooldown_message e); EvSleep (5 * 60)] ++ t2).
      split; [rewrite Ht2; simpl; rewrite Ht1, <- !app_assoc; reflexivity|].
      rewrite !reports_app, Hr1, Hr2. reflexivity.
    + exists t1. auto.
    + destruct (status =? 200); simpl.
      * exists t1. auto.
      * exists (t1 ++ [EvPrint "Got erroneous response back"]).
        split; [rewrite Ht1, <- app_assoc; reflexivity|].
        rewrite reports_app, Hr1. reflexivity.
Qed.

Lemma flush_if_huge_no_report (filepath : string) (last : Z)
    (batches1 : list DataFrame) (df0 : option DataFrame) (st : State) :
  exists t,
    trace (snd (flush_if_huge filepath last batches1 df0 st)) = trace st ++ t
    /\ reports t = [].
Proof.
  unfold flush_if_huge.
  destruct (param_int "limit" st) as [l|e|];
    try (exists []; split; [symmetry; apply app_nil_r | reflexivity]).
  destruct (len batches1 * l >=? 5000); simpl.
  - eexists. split; reflexivity.
  - exists []. split; [symmetry; apply app_nil_r | reflexivity].
Qed.

Lemma trade_loop_no_report (w : World) (filepath : string) (fuel : nat) :
  forall previous_id last_id loc st,
  exists t,
    trace (snd (trade_loop w fuel filepath previous_id last_id loc st))
    = trace st ++ t /\ reports t = [].
Proof.
  induction fuel as [|fuel IH]; intros previous_id last_id loc st; simpl.
  { exists []. split; [symmetry; apply app_nil_r | reflexivity]. }
  assert (Hnil : exists t, trace st = trace st ++ t /\ reports t = [])
    by (exists []; split; [symmetry; apply app_nil_r | reflexivity]).
  destruct (previous_id =? last_id); [exact Hnil|].
  destruct ((previous_id >=? last_id) && (previous_id >? 0)); [exact Hnil|].
  destruct (get_batch_no_report w fuel "aggTrades" (timeout (args w)) st)
    as (t1 & Ht1 & Hr1).
  destruct (get_batch w fuel "aggTrades" (timeout (args w)) st)
    as [[new_batch|e|] st1]; simpl in *; eauto.
  assert (Hp : exists t2,
            trace (snd (trade_page filepath new_batch loc st1))
            = trace st1 ++ t2 /\ reports t2 = []).
  { unfold trade_page. destruct new_batch as [|r rs].
    - exists []. split; [symmetry; apply app_nil_r | reflexivity].
    - match goal with |- context [flush_if_huge ?a ?b ?c ?d ?s] =>
        destruct (flush_if_huge_no_report a b c d s) as (t2 & Ht2 & Hr2)
      end. exists t2. split; [exact Ht2 | exact Hr2]. }
  destruct Hp as (t2 & Ht2 & Hr2).
  assert (H12 : exists t, trace (snd (trade_page filepath new_batch loc st1))
                          = trace st ++ t /\ reports t = []).
  { exists (t1 ++ t2). split; [rewrite Ht2, Ht1, app_assoc; reflexivity|].
    rewrite reports_app, Hr1, Hr2. reflexivity. }
  destruct (trade_page filepath new_batch loc st1)
    as [[[|l loc']|e|] st2]; simpl in *; try exact H12.
  destruct (IH last_id l loc' st2) as (t3 & Ht3 & Hr3).
  exists (t1 ++ t2 ++ t3).
  split; [rewrite Ht3, Ht2, Ht1, <- !app_assoc; reflexivity|].
  rewrite !reports_app, Hr1, Hr2, Hr3. reflexivity.
Qed.

Lemma candle_loop_no_report (w : World) (filepath : string) (fuel : nat) :
  forall previous_timestamp last_timestamp loc st,
  exists t,
    trace (snd (candle_loop w fuel filepath previous_timestamp last_timestamp
                            loc st))
    = trace st ++ t /\ reports t = [].
Proof.
  induction fuel as [|fuel IH];
    intros previous_timestamp last_timestamp loc st; simpl.
  { exists []. split; [symmetry; apply app_nil_r | reflexivity]. }
  assert (Hnil : exists t, trace st = trace st ++ t /\ reports t = [])
    by (exists []; split; [symmetry; apply app_nil_r | reflexivity]).
  destruct (bool_decide (previous_timestamp = Some last_timestamp));
    [exact Hnil|].
  destruct (date_fromtimestamp w last_timestamp) as [day|e|];
    try exact Hnil.
  destruct (day >=? today w); [exact Hnil|].
  set (st0 := set_param "startTime" (VInt (last_timestamp + 1)) st).
  destruct (get_batch_no_report w fuel "klines" (VInt 30) st0)
    as (t1 & Ht1 & Hr1).
  change (trace st0) with (trace st) in Ht1.
  destruct (get_batch w fuel "klines" (VInt 30) st0)
    as [[new_batch|e|] st1]; simpl in *; eauto.
  assert (Hp : exists t2,
            trace (snd (candle_page filepath last_timestamp new_batch loc
                                    st1))
            = trace st1 ++ t2 /\ reports t2 = []).
  { unfold candle_page. destruct new_batch as [|r rs].
    - exists []. split; [symmetry; apply app_nil_r | reflexivity].
    - destruct (last_timestamp =? max_key r rs).
      + exists []. split; [symmetry; apply app_nil_r | reflexivity].
      + match goal with |- context [flush_if_huge ?a ?b ?c ?d ?s] =>
          destruct (flush_if_huge_no_report a b c d s) as (t2 & Ht2 & Hr2)
        end. exists t2. split; [exact Ht2 | exact Hr2]. }
  destruct Hp as (t2 & Ht2 & Hr2).
  assert (H12 : exists t,
            trace (snd (candle_page filepath last_timestamp new_batch loc
                                    st1))
            = trace st ++ t /\ reports t = []).
  { exists (t1 ++ t2). split; [rewrite Ht2, Ht1, app_assoc; reflexivity|].
    rewrite reports_app, Hr1, Hr2. reflexivity. }
  destruct (candle_page filepath last_timestamp new_batch loc st1)
    as [[[|l loc']|e|] st2]; simpl in *; try exact H12.
  destruct (IH (Some last_timestamp) l loc' st2) as (t3 & Ht3 & Hr3).
  exists (t1 ++ t2 ++ t3).
  split; [rewrite Ht3, Ht2, Ht1, <- !app_assoc; reflexivity|].
  rewrite !reports_app, Hr1, Hr2, Hr3. reflexivity.
Qed.

Lemma finish_run_no_report (filepath base quote : string) (wp : bool)
    (old_lines : Z) (loc : Locals) (st : State) :
  exists t,
    trace (snd (finish_run filepath base quote wp old_lines loc st))
    = trace st ++ t /\ reports t = [].
Proof.
  unfold finish_run.
  destruct wp, (len (batches loc) >? 1), (df loc); simpl;
    solve [ exists []; split; [symmetry; apply app_nil_r | reflexivity]
          | eexists; split; [reflexivity | reflexivity] ].
Qed.

Lemma drivers_no_report (w : World) (fuel : nat)
    (base quote interval_ : string) (wp : bool) (st : State) :
  (exists t, trace (snd (all_trade_to_csv w fuel base quote wp st))
             = trace st ++ t /\ reports t = []) /\
  (exists t, trace (snd (all_candle_to_csv w fuel base quote interval_ wp st))
             = trace st ++ t /\ reports t = []).
Proof.
  split.
  - unfold all_trade_to_csv.
    destruct (trade_resume (trade_filepath base quote) st)
      as [out st1] eqn:Hres.
    apply trade_resume_spec in Hres as (Ht & _).
    assert (Hnil : exists t, trace st1 = trace st ++ t /\ reports t = [])
      by (exists []; split; [rewrite Ht; symmetry; apply app_nil_r
                            | reflexivity]).
    destruct out as [[batches0 last_id]|e|]; simpl; try exact Hnil.
    destruct (trade_loop_no_report w (trade_filepath base quote) fuel (-1)
                last_id (mkLocals batches0 None) st1) as (t2 & Ht2 & Hr2).
    rewrite Ht in Ht2.
    destruct (trade_loop w fuel _ _ _ _ st1) as [[loc|e|] st2];
      simpl in *; eauto.
    destruct (finish_run_no_report (trade_filepath base quote) base quote wp
                (len (default [] (last batches0))) loc st2)
      as (t3 & Ht3 & Hr3).
    exists (t2 ++ t3). split; [rewrite Ht3, Ht2, app_assoc; reflexivity|].
    rewrite reports_app, Hr2, Hr3. reflexivity.
  - unfold all_candle_to_csv.
    destruct (candle_resume (candle_filepath base quote interval_) st)
      as [out st1] eqn:Hres.
    apply candle_resume_spec in Hres as (-> & _).
    assert (Hnil : exists t, trace st = trace st ++ t /\ reports t = [])
      by (exists []; split; [symmetry; apply app_nil_r | reflexivity]).
    destruct out as [[batches0 last_timestamp]|e|]; simpl; try exact Hnil.
    destruct (candle_loop_no_report w (candle_filepath base quote interval_)
                fuel None last_timestamp (mkLocals batches0 None) st)
      as (t2 & Ht2 & Hr2).
    destruct (candle_loop w fuel _ _ _ _ st) as [[loc|e|] st2];
      simpl in *; eauto.
    destruct (finish_run_no_report (candle_filepath base quote interval_)
                base quote wp (len (default [] (last batches0))) loc st2)
      as (t3 & Ht3 & Hr3).
    exists (t2 ++ t3). split; [rewrite Ht3, Ht2, app_assoc; reflexivity|].
    rewrite reports_app, Hr2, Hr3. reflexivity.
Qed.

Lemma historical_no_report (w : World) (fuel : nat) (base quote : string)
    (st : State) :
  (exists t, trace (snd (get_historical_candlesticks w fuel base quote st))
             = trace st ++ t /\ reports t = []) /\
  (exists t, trace (snd (get_historical_agg_trades w fuel base quote st))
             = trace st ++ t /\ reports t = []).
Proof.
  split.
  - unfold get_historical_candlesticks.
    match goal with
    | |- context [all_candle_to_csv w fuel ?b ?q ?i ?p ?s] =>
        exact (proj2 (drivers_no_report w fuel b q i p s))
    end.
  - unfold get_historical_agg_trades.
    match goal with
    | |- context [all_trade_to_csv w fuel ?b ?q ?p ?s] =>
        exact (proj1 (drivers_no_report w fuel b q "" p s))
    end.
Qed.

Lemma main_loop_reports (w : World) (fuel : nat) :
  forall (all_pairs : list (list string)) (new_lines : option Z)
         (st st' : State),
  main_loop w fuel all_pairs new_lines st = (Ok tt, st') ->
  exists t, trace st' = trace st ++ t /\
            map snd (reports t) = all_pairs /\
            Forall (fun r => fst (fst r) = (snd (fst r) >? 0)) (reports t).
Proof.
  induction all_pairs as [|pair_ rest IH]; intros new_lines st st'.
  - simpl. intros [= <-]. exists [].
    split_and!; [symmetry; apply app_nil_r | reflexivity | constructor].
  - cbn [main_loop].
    destruct pair_ as [|base [|quote [|x l]]]; try discriminate.
    assert (Hstep : forall (n : Z) (st1 : State) t1,
      trace st1 = trace st ++ t1 -> reports t1 = [] ->
      main_loop w fuel rest (Some n)
                (log (EvReport (n >? 0) n base quote) st1) = (Ok tt, st') ->
      exists t, trace st' = trace st ++ t /\
                map snd (reports t) = [base; quote] :: rest /\
                Forall (fun r => fst (fst r) = (snd (fst r) >? 0))
                       (reports t)).
    { intros n st1 t1 Ht1 Hr1 Hrest.
      destruct (IH _ _ _ Hrest) as (t3 & Ht3 & Hmap & Hall).
      exists (t1 ++ [EvReport (n >? 0) n base quote] ++ t3).
      split_and!.
      - rewrite Ht3. simpl. rewrite Ht1, <- !app_assoc. reflexivity.
      - rewrite !reports_app, Hr1. simpl. f_equal. exact Hmap.
      - rewrite !reports_app, Hr1. simpl.
        constructor; [reflexivity | exact Hall]. }
    destruct (String.eqb (dtype (args w)) "candle").
    + destruct (proj1 (historical_no_report w fuel base quote st))
        as (t1 & Ht1 & Hr1).
      destruct (get_historical_candlesticks w fuel base quote st)
        as [[n|e|] st1]; simpl in *; try discriminate.
      apply (Hstep n st1 t1 Ht1 Hr1).
    + destruct (String.eqb (dtype (args w)) "trade").
      * destruct (proj2 (historical_no_report w fuel base quote st))
          as (t1 & Ht1 & Hr1).
        destruct (get_historical_agg_trades w fuel base quote st)
          as [[n|e|] st1]; simpl in *; try discriminate.
        apply (Hstep n st1 t1 Ht1 Hr1).
      * destruct new_lines as [n|]; try discriminate.
        apply (Hstep n st []); [symmetry; apply app_nil_r | reflexivity].
Qed.

(** X14: when the loop of [main] completes, it has reported on every
    instrument of its list once, in the order of the list, and on nothing
    else; each report announces new lines exactly when the count the driver
    returned is positive. *)
Theorem main_reports_each_instrument (w : World) (fuel : nat)
    (all_pairs : list (list string)) (new_lines : option Z)
    (st st' : State) :
  main_loop w fuel all_pairs new_lines st = (Ok tt, st') ->
  map snd (reports (new_events st st')) = all_pairs /\
  Forall (fun r => fst (fst r) = (snd (fst r) >? 0))
         (reports (new_events st st')).
Proof.
  intros H. apply main_loop_reports in H as (t & Ht & Hmap & Hall).
  rewrite (new_events_app _ _ _ Ht). split; assumption.
Qed.

Lemma main_reports_each_instrument_witness :
  map snd (reports (new_events fresh_state
                      (snd (main_loop two_pair_world 5
                              [["BTC"; "USDT"]; ["ETH"; "BTC"]] None
                              fresh_state))))
  = [["BTC"; "USDT"]; ["ETH"; "BTC"]].
Proof.
  refine (proj1 (main_reports_each_instrument two_pair_world 5
                   [["BTC"; "USDT"]; ["ETH"; "BTC"]] None fresh_state
                   (snd (main_loop two_pair_world 5
                           [["BTC"; "USDT"]; ["ETH"; "BTC"]] None
                           fresh_state)) _)).
  vm_compute. reflexivity.
Defined.
